(** * Ledger core: accounts, transactions, in-memory stores and services

    A shallow embedding of the Go ledger core
    ([internal/core/domain], [internal/core/application/services] and the
    in-memory repositories of package [memory])
    together with the properties of its specification.

    Modelling choices, all taken from the source:
    - [float64] is IEEE-754 binary64, through the executable specification
      [SpecFloat] of the standard library (precision 53, emax 1024);
    - the stores are Go maps from string keys to pointers; entities are
      heap objects that the services mutate through these pointers, so
      the heap and the aliasing are explicit;
    - a program is a sequence of atomic steps on the shared state (a small
      resumption monad): a repository method holds its mutex for its whole
      body and is one step; a call of an entity method is one step as well
      (Go could interleave inside it, which only adds schedules);
    - [time.Now()] reads a clock that ticks at every reading;
    - the iteration order of [range] over a Go map is unspecified: the
      functions that range over a store take the order as an argument;
    - [errors.New msg] is the message [msg];
    - the [context.Context] argument is passed along and never inspected by
      the code: it is left out. *)

From Stdlib Require Import ZArith Lia.
From Stdlib Require Import Floats.SpecFloat.
From stdpp Require Import base option list strings gmap.

Local Open Scope string_scope.

(** ** float64 *)

Module Float64.

Definition float64 : Type := spec_float.

Definition prec : Z := 53.
Definition emax : Z := 1024.

(** The Go operators on [float64] used by the ledger. *)
Definition add (x y : float64) : float64 := SFadd prec emax x y.
Definition sub (x y : float64) : float64 := SFsub prec emax x y.
Definition mul (x y : float64) : float64 := SFmul prec emax x y.
Definition div (x y : float64) : float64 := SFdiv prec emax x y.
Definition ltb (x y : float64) : bool := SFltb x y.
Definition leb (x y : float64) : bool := SFleb x y.
Definition eqb (x y : float64) : bool := SFeqb x y.

(** The constant [0] and integer literals converted to [float64]. *)
Definition zero : float64 := S754_zero false.
Definition of_Z (z : Z) : float64 := binary_normalize prec emax z 0 false.

(** A decimal literal [n / 10^k], correctly rounded: the quotient of two
    exactly represented integers. *)
Definition dec (n : Z) (k : nat) : float64 := div (of_Z n) (of_Z (10 ^ Z.of_nat k)).

Definition pInf : float64 := S754_infinity false.
Definition NaN : float64 := S754_nan.

Definition is_finite (x : float64) : bool :=
  match x with
  | S754_zero _ | S754_finite _ _ _ => true
  | _ => false
  end.

End Float64.

Import Float64.

(** ** Go results *)

(** A Go result [(T, error)]: the value, or the message of the error. *)
Inductive Result (A : Type) : Type :=
| Ok (a : A)
| Err (msg : string).
Arguments Ok {A} a.
Arguments Err {A} msg.

(** ** package valueobjects *)

Module valueobjects.

Definition Currency : Type := string.

Definition CurrencyUSD : Currency := "USD".
Definition CurrencyEUR : Currency := "EUR".
Definition CurrencyGBP : Currency := "GBP".

Record Money : Type := mkMoney {
  Amount : float64;
  Currency_ : Currency
}.

(** The Go zero value [Money{}]. *)
Definition Money_zero : Money := mkMoney zero EmptyString.

Definition NewMoney (amount : float64) (currency : Currency) : Money :=
  mkMoney amount currency.

(** [func (m Money) Add(other Money) (Money, error)] *)
Definition Add (m other : Money) : Result Money :=
  if negb (String.eqb (Currency_ m) (Currency_ other)) then Err "currency mismatch"
  else Ok (mkMoney (add (Amount m) (Amount other)) (Currency_ m)).

(** [func (m Money) Subtract(other Money) (Money, error)] *)
Definition Subtract (m other : Money) : Result Money :=
  if negb (String.eqb (Currency_ m) (Currency_ other)) then Err "currency mismatch"
  else Ok (mkMoney (sub (Amount m) (Amount other)) (Currency_ m)).

(** [m.Amount > 0] *)
Definition IsPositive (m : Money) : bool := ltb zero (Amount m).

(** [m.Amount == 0] *)
Definition IsZero (m : Money) : bool := eqb (Amount m) zero.

Definition Multiply (m : Money) (factor : float64) : Money :=
  mkMoney (mul (Amount m) factor) (Currency_ m).

End valueobjects.

Import valueobjects.

(** ** Time and pointers *)

(** A [time.Time] is a reading of the clock. *)
Abbreviation Time := nat (only parsing).

(** A pointer is the index of the object in the heap it points into. *)
Abbreviation ptr := nat (only parsing).

(** ** package entities *)

(** The status and transaction-type types are Go string types of which the
    code only ever uses the declared constants: they are enumerations. *)

Module Account.

Inductive AccountStatus : Type :=
| AccountStatusActive
| AccountStatusSuspended
| AccountStatusClosed.

Definition AccountStatus_eqb (x y : AccountStatus) : bool :=
  match x, y with
  | AccountStatusActive, AccountStatusActive
  | AccountStatusSuspended, AccountStatusSuspended
  | AccountStatusClosed, AccountStatusClosed => true
  | _, _ => false
  end.

(** [type AccountType string]: any string can flow in from a request. *)
Definition AccountType : Type := string.
Definition AccountTypePersonal : AccountType := "personal".
Definition AccountTypeBusiness : AccountType := "business".
Definition AccountTypeEnterprise : AccountType := "enterprise".

Record t : Type := mk {
  ID : string;
  OwnerID : string;
  Email : string;
  AccountType_ : AccountType;
  Status : AccountStatus;
  Balance : float64;
  CreatedAt : Time;
  UpdatedAt : Time
}.

(** The fields of the object [NewAccount] allocates, at time [now]. *)
Definition NewAccount_at (now : Time) (id ownerID email : string)
    (accountType : AccountType) : t :=
  mk id ownerID email accountType AccountStatusActive zero now now.

(** Value receivers: they work on a copy of the object. *)
Definition IsActive (a : t) : bool := AccountStatus_eqb (Status a) AccountStatusActive.
Definition GetBalance (a : t) : float64 := Balance a.

(** Pointer receivers: the effect on the object, at time [now]. *)
Definition UpdateBalance_at (now : Time) (amount : float64) (a : t) : t :=
  mk (ID a) (OwnerID a) (Email a) (AccountType_ a) (Status a) amount (CreatedAt a) now.

Definition Suspend_at (now : Time) (a : t) : t :=
  mk (ID a) (OwnerID a) (Email a) (AccountType_ a) AccountStatusSuspended
     (Balance a) (CreatedAt a) now.

Definition Activate_at (now : Time) (a : t) : t :=
  mk (ID a) (OwnerID a) (Email a) (AccountType_ a) AccountStatusActive
     (Balance a) (CreatedAt a) now.

End Account.

Module Transaction.

Inductive TransactionType : Type :=
| TransactionTypeDeposit
| TransactionTypeWithdrawal
| TransactionTypeTransfer.

Inductive TransactionStatus : Type :=
| TransactionStatusPending
| TransactionStatusCompleted
| TransactionStatusFailed.

Definition TransactionStatus_eqb (x y : TransactionStatus) : bool :=
  match x, y with
  | TransactionStatusPending, TransactionStatusPending
  | TransactionStatusCompleted, TransactionStatusCompleted
  | TransactionStatusFailed, TransactionStatusFailed => true
  | _, _ => false
  end.

Record t : Type := mk {
  ID : string;
  AccountID : string;
  Type_ : TransactionType;
  Status : TransactionStatus;
  Amount : float64;
  Description : string;
  SourceAccountID : string;
  TargetAccountID : string;
  CreatedAt : Time;
  ProcessedAt : option Time
}.

(** The fields of the object [NewTransaction] allocates, at time [now]:
    the fields it does not name keep their zero values. *)
Definition NewTransaction_at (now : Time) (id accountID : string)
    (txType : TransactionType) (amount : float64) : t :=
  mk id accountID txType TransactionStatusPending amount
     EmptyString EmptyString EmptyString now None.

Definition IsPending (x : t) : bool :=
  TransactionStatus_eqb (Status x) TransactionStatusPending.
Definition IsCompleted (x : t) : bool :=
  TransactionStatus_eqb (Status x) TransactionStatusCompleted.

Definition set_status (s : TransactionStatus) (now : Time) (x : t) : t :=
  mk (ID x) (AccountID x) (Type_ x) s (Amount x) (Description x)
     (SourceAccountID x) (TargetAccountID x) (CreatedAt x) (Some now).

(** [t.Status = TransactionStatusCompleted; now := time.Now(); t.ProcessedAt = &now] *)
Definition Complete_at (now : Time) (x : t) : t :=
  set_status TransactionStatusCompleted now x.

(** [t.Status = TransactionStatusFailed; now := time.Now(); t.ProcessedAt = &now] *)
Definition Fail_at (now : Time) (x : t) : t :=
  set_status TransactionStatusFailed now x.

Definition set_SourceAccountID (v : string) (x : t) : t :=
  mk (ID x) (AccountID x) (Type_ x) (Status x) (Amount x) (Description x)
     v (TargetAccountID x) (CreatedAt x) (ProcessedAt x).

Definition set_TargetAccountID (v : string) (x : t) : t :=
  mk (ID x) (AccountID x) (Type_ x) (Status x) (Amount x) (Description x)
     (SourceAccountID x) v (CreatedAt x) (ProcessedAt x).

End Transaction.

(** ** The shared world: clock, heap and the two repositories *)

(** The state every goroutine shares. *)
Record World : Type := mkWorld {
  clock : Time;                          (* what [time.Now()] returns next *)
  account_objs : list Account.t;         (* heap of [*entities.Account] *)
  transaction_objs : list Transaction.t; (* heap of [*entities.Transaction] *)
  accounts : gmap string ptr;            (* [AccountRepositoryImpl.accounts] *)
  transactions : gmap string ptr         (* [TransactionRepositoryImpl.transactions] *)
}.

(** [NewAccountRepository()] and [NewTransactionRepository()] at time [t0]. *)
Definition empty_world (t0 : Time) : World := mkWorld t0 [] [] ∅ ∅.

(** ** Programs: sequences of atomic steps on the world *)

(** An atomic step returns [None] when it dereferences a pointer that
    points to no object (a Go run-time panic). *)
Inductive Prog (A : Type) : Type :=
| Ret (a : A)
| Atomic {X : Type} (act : World -> option (X * World)) (k : X -> Prog A).
Arguments Ret {A} a.
Arguments Atomic {A X} act k.

Fixpoint bind {A B : Type} (p : Prog A) (f : A -> Prog B) : Prog B :=
  match p with
  | Ret a => f a
  | Atomic act k => Atomic act (fun x => bind (k x) f)
  end.

(** [if err != nil { return nil, err }] *)
Definition bindR {A B : Type} (p : Prog (Result A)) (f : A -> Prog (Result B))
    : Prog (Result B) :=
  bind p (fun r => match r with Ok a => f a | Err e => Ret (Err e) end).

Notation "x <- p ;; q" := (bind p (fun x => q))
  (at level 100, p at next level, right associativity).
Notation "p ;; q" := (bind p (fun _ => q))
  (at level 100, right associativity).
Notation "x <-? p ;; q" := (bindR p (fun x => q))
  (at level 100, p at next level, right associativity).

(** One atomic step with a result. *)
Definition atomic {X : Type} (act : World -> option (X * World)) : Prog X :=
  Atomic act Ret.

(** Sequential execution: the program runs alone, to completion. *)
Fixpoint run {A : Type} (p : Prog A) (w : World) : option (A * World) :=
  match p with
  | Ret a => Some (a, w)
  | Atomic act k =>
      match act w with
      | Some (x, w') => run (k x) w'
      | None => None
      end
  end.

(** *** Heap and clock primitives *)

Definition set_clock (c : Time) (w : World) : World :=
  mkWorld c (account_objs w) (transaction_objs w) (accounts w) (transactions w).
Definition set_account_objs (h : list Account.t) (w : World) : World :=
  mkWorld (clock w) h (transaction_objs w) (accounts w) (transactions w).
Definition set_transaction_objs (h : list Transaction.t) (w : World) : World :=
  mkWorld (clock w) (account_objs w) h (accounts w) (transactions w).
Definition set_accounts (m : gmap string ptr) (w : World) : World :=
  mkWorld (clock w) (account_objs w) (transaction_objs w) m (transactions w).
Definition set_transactions (m : gmap string ptr) (w : World) : World :=
  mkWorld (clock w) (account_objs w) (transaction_objs w) (accounts w) m.

(** The world after one reading of the clock. *)
Definition tick (w : World) : World := set_clock (S (clock w)) w.

(** Read the account [p] points to and apply a value receiver. *)
Definition read_account {X : Type} (f : Account.t -> X) (p : ptr) : Prog X :=
  atomic (fun w =>
    match account_objs w !! p with
    | Some a => Some (f a, w)
    | None => None
    end).

(** Apply a pointer receiver that reads the clock once to the account [p]
    points to. *)
Definition update_account (f : Time -> Account.t -> Account.t) (p : ptr) : Prog unit :=
  atomic (fun w =>
    match account_objs w !! p with
    | Some a => Some (tt, tick (set_account_objs (<[p := f (clock w) a]> (account_objs w)) w))
    | None => None
    end).

Definition read_transaction {X : Type} (f : Transaction.t -> X) (p : ptr) : Prog X :=
  atomic (fun w =>
    match transaction_objs w !! p with
    | Some x => Some (f x, w)
    | None => None
    end).

Definition update_transaction (f : Time -> Transaction.t -> Transaction.t) (p : ptr)
    : Prog unit :=
  atomic (fun w =>
    match transaction_objs w !! p with
    | Some x =>
        Some (tt, tick (set_transaction_objs (<[p := f (clock w) x]> (transaction_objs w)) w))
    | None => None
    end).

(** A field assignment through a pointer: no clock involved. *)
Definition assign_transaction (f : Transaction.t -> Transaction.t) (p : ptr) : Prog unit :=
  atomic (fun w =>
    match transaction_objs w !! p with
    | Some x => Some (tt, set_transaction_objs (<[p := f x]> (transaction_objs w)) w)
    | None => None
    end).

Module entities.

(** [NewAccount]: allocates the object and returns the pointer to it. *)
Definition NewAccount (id ownerID email : string) (accountType : Account.AccountType)
    : Prog ptr :=
  atomic (fun w =>
    let a := Account.NewAccount_at (clock w) id ownerID email accountType in
    Some (length (account_objs w), tick (set_account_objs (account_objs w ++ [a]) w))).

Definition Account_IsActive : ptr -> Prog bool := read_account Account.IsActive.
Definition Account_GetBalance : ptr -> Prog float64 := read_account Account.GetBalance.
Definition Account_UpdateBalance (p : ptr) (amount : float64) : Prog unit :=
  update_account (fun now => Account.UpdateBalance_at now amount) p.
Definition Account_Suspend : ptr -> Prog unit := update_account Account.Suspend_at.
Definition Account_Activate : ptr -> Prog unit := update_account Account.Activate_at.

(** [NewTransaction]: allocates the object and returns the pointer to it. *)
Definition NewTransaction (id accountID : string)
    (txType : Transaction.TransactionType) (amount : float64) : Prog ptr :=
  atomic (fun w =>
    let x := Transaction.NewTransaction_at (clock w) id accountID txType amount in
    Some (length (transaction_objs w),
          tick (set_transaction_objs (transaction_objs w ++ [x]) w))).

Definition Transaction_IsPending : ptr -> Prog bool :=
  read_transaction Transaction.IsPending.
Definition Transaction_IsCompleted : ptr -> Prog bool :=
  read_transaction Transaction.IsCompleted.
Definition Transaction_Complete : ptr -> Prog unit :=
  update_transaction Transaction.Complete_at.
Definition Transaction_Fail : ptr -> Prog unit :=
  update_transaction Transaction.Fail_at.

End entities.

(** ** package memory: the in-memory repositories *)

(** [for _, v := range m] visiting the keys in the order [iter]. *)
Definition range_values (m : gmap string ptr) (iter : list string) : list ptr :=
  omap (fun k => m !! k) iter.

(** [iter] is an order in which [range] can visit [m]: every key once. *)
Definition range_order (m : gmap string ptr) (iter : list string) : Prop :=
  iter ≡ₚ (map_to_list m).*1.

(** The pointers of [ps] whose object satisfies [f], in the order of [ps];
    [None] when one of them points to no object. *)
Fixpoint select_objs {T : Type} (h : list T) (f : T -> bool) (ps : list ptr)
    : option (list ptr) :=
  match ps with
  | [] => Some []
  | p :: ps' =>
      match h !! p with
      | Some x =>
          match select_objs h f ps' with
          | Some r => Some (if f x then p :: r else r)
          | None => None
          end
      | None => None
      end
  end.

(** The first pointer of [ps] whose object satisfies [f]. *)
Fixpoint first_obj {T : Type} (h : list T) (f : T -> bool) (ps : list ptr)
    : option (option ptr) :=
  match ps with
  | [] => Some None
  | p :: ps' =>
      match h !! p with
      | Some x => if f x then Some (Some p) else first_obj h f ps'
      | None => None
      end
  end.

Module AccountRepositoryImpl.

Definition FindByID (id : string) : Prog (Result ptr) :=
  atomic (fun w =>
    match accounts w !! id with
    | Some account => Some (Ok account, w)
    | None => Some (Err "account not found", w)
    end).

Definition FindByOwnerID (iter : list string) (ownerID : string)
    : Prog (Result (list ptr)) :=
  atomic (fun w =>
    match select_objs (account_objs w)
            (fun a => String.eqb (Account.OwnerID a) ownerID)
            (range_values (accounts w) iter) with
    | Some result => Some (Ok result, w)
    | None => None
    end).

Definition FindByEmail (iter : list string) (email : string) : Prog (Result ptr) :=
  atomic (fun w =>
    match first_obj (account_objs w)
            (fun a => String.eqb (Account.Email a) email)
            (range_values (accounts w) iter) with
    | Some (Some account) => Some (Ok account, w)
    | Some None => Some (Err "account not found", w)
    | None => None
    end).

Definition Save (account : ptr) : Prog (Result unit) :=
  atomic (fun w =>
    match account_objs w !! account with
    | Some a =>
        if String.eqb (Account.ID a) EmptyString
        then Some (Err "account ID is required", w)
        else Some (Ok tt, set_accounts (<[Account.ID a := account]> (accounts w)) w)
    | None => None
    end).

Definition Delete (id : string) : Prog (Result unit) :=
  atomic (fun w =>
    match accounts w !! id with
    | Some _ => Some (Ok tt, set_accounts (delete id (accounts w)) w)
    | None => Some (Err "account not found", w)
    end).

Definition GetBalance (id : string) : Prog (Result float64) :=
  atomic (fun w =>
    match accounts w !! id with
    | Some account =>
        match account_objs w !! account with
        | Some a => Some (Ok (Account.GetBalance a), w)
        | None => None
        end
    | None => Some (Err "account not found", w)
    end).

End AccountRepositoryImpl.

Module TransactionRepositoryImpl.

Definition FindByID (id : string) : Prog (Result ptr) :=
  atomic (fun w =>
    match transactions w !! id with
    | Some tx => Some (Ok tx, w)
    | None => Some (Err "transaction not found", w)
    end).

Definition FindByAccountID (iter : list string) (accountID : string)
    : Prog (Result (list ptr)) :=
  atomic (fun w =>
    match select_objs (transaction_objs w)
            (fun x => String.eqb (Transaction.AccountID x) accountID)
            (range_values (transactions w) iter) with
    | Some result => Some (Ok result, w)
    | None => None
    end).

Definition Save (tx : ptr) : Prog (Result unit) :=
  atomic (fun w =>
    match transaction_objs w !! tx with
    | Some x =>
        if String.eqb (Transaction.ID x) EmptyString
        then Some (Err "transaction ID is required", w)
        else Some (Ok tt, set_transactions (<[Transaction.ID x := tx]> (transactions w)) w)
    | None => None
    end).

Definition GetPendingTransactions (iter : list string) : Prog (Result (list ptr)) :=
  atomic (fun w =>
    match select_objs (transaction_objs w) Transaction.IsPending
            (range_values (transactions w) iter) with
    | Some result => Some (Ok result, w)
    | None => None
    end).

End TransactionRepositoryImpl.

(** ** package services *)

Module services.

Import entities.

Definition generateAccountID : string := "acc_" ++ "12345".
Definition generateTransactionID : string := "tx_" ++ "12345".

(** *** AccountService *)

Definition GetAccount (id : string) : Prog (Result ptr) :=
  account <-? AccountRepositoryImpl.FindByID id ;;
  Ret (Ok account).

Definition GetAccountByEmail (iter : list string) (email : string) : Prog (Result ptr) :=
  AccountRepositoryImpl.FindByEmail iter email.

Definition CreateAccount (iter : list string) (ownerID email : string)
    (accountType : Account.AccountType) : Prog (Result ptr) :=
  existing <- AccountRepositoryImpl.FindByEmail iter email ;;
  match existing with
  | Ok _ => Ret (Err "account with email already exists")
  | Err _ =>
      account <- NewAccount generateAccountID ownerID email accountType ;;
      _ <-? AccountRepositoryImpl.Save account ;;
      Ret (Ok account)
  end.

Definition GetAccountBalance (id : string) : Prog (Result Money) :=
  balance <-? AccountRepositoryImpl.GetBalance id ;;
  Ret (Ok (NewMoney balance CurrencyUSD)).

Definition UpdateAccountBalance (id : string) (amount : float64) : Prog (Result unit) :=
  account <-? AccountRepositoryImpl.FindByID id ;;
  Account_UpdateBalance account amount ;;
  AccountRepositoryImpl.Save account.

Definition SuspendAccount (id : string) : Prog (Result unit) :=
  account <-? AccountRepositoryImpl.FindByID id ;;
  Account_Suspend account ;;
  AccountRepositoryImpl.Save account.

(** *** TransactionService *)

Definition GetTransaction (id : string) : Prog (Result ptr) :=
  TransactionRepositoryImpl.FindByID id.

Definition GetAccountTransactions (iter : list string) (accountID : string)
    : Prog (Result (list ptr)) :=
  account <-? AccountRepositoryImpl.FindByID accountID ;;
  active <- Account_IsActive account ;;
  if negb active then Ret (Err "account is not active")
  else TransactionRepositoryImpl.FindByAccountID iter accountID.

Definition CreateDeposit (accountID : string) (amount : Money) : Prog (Result ptr) :=
  if negb (IsPositive amount) then Ret (Err "deposit amount must be positive")
  else
    account <-? AccountRepositoryImpl.FindByID accountID ;;
    active <- Account_IsActive account ;;
    if negb active then Ret (Err "account is not active")
    else
      tx <- NewTransaction generateTransactionID accountID
              Transaction.TransactionTypeDeposit (Amount amount) ;;
      balance <- Account_GetBalance account ;;
      let newBalance := add balance (Amount amount) in
      Account_UpdateBalance account newBalance ;;
      _ <-? TransactionRepositoryImpl.Save tx ;;
      _ <-? AccountRepositoryImpl.Save account ;;
      Transaction_Complete tx ;;
      Ret (Ok tx).

Definition CreateWithdrawal (accountID : string) (amount : Money) : Prog (Result ptr) :=
  if negb (IsPositive amount) then Ret (Err "withdrawal amount must be positive")
  else
    account <-? AccountRepositoryImpl.FindByID accountID ;;
    balance <- Account_GetBalance account ;;
    if ltb balance (Amount amount) then Ret (Err "insufficient balance")
    else
      tx <- NewTransaction generateTransactionID accountID
              Transaction.TransactionTypeWithdrawal (Amount amount) ;;
      balance' <- Account_GetBalance account ;;
      let newBalance := sub balance' (Amount amount) in
      Account_UpdateBalance account newBalance ;;
      _ <-? TransactionRepositoryImpl.Save tx ;;
      _ <-? AccountRepositoryImpl.Save account ;;
      Transaction_Complete tx ;;
      Ret (Ok tx).

Definition CreateTransfer (sourceAccountID targetAccountID : string) (amount : Money)
    : Prog (Result ptr) :=
  if String.eqb sourceAccountID targetAccountID
  then Ret (Err "cannot transfer to same account")
  else
    r1 <- AccountRepositoryImpl.FindByID sourceAccountID ;;
    match r1 with
    | Err _ => Ret (Err "source account not found")
    | Ok sourceAccount =>
        r2 <- AccountRepositoryImpl.FindByID targetAccountID ;;
        match r2 with
        | Err _ => Ret (Err "target account not found")
        | Ok targetAccount =>
            sourceActive <- Account_IsActive sourceAccount ;;
            targetActive <-
              (if negb sourceActive then Ret false else Account_IsActive targetAccount) ;;
            if negb sourceActive || negb targetActive
            then Ret (Err "both accounts must be active")
            else
              sourceBalance <- Account_GetBalance sourceAccount ;;
              if ltb sourceBalance (Amount amount) then Ret (Err "insufficient balance")
              else
                tx <- NewTransaction generateTransactionID sourceAccountID
                        Transaction.TransactionTypeTransfer (Amount amount) ;;
                assign_transaction (Transaction.set_SourceAccountID sourceAccountID) tx ;;
                assign_transaction (Transaction.set_TargetAccountID targetAccountID) tx ;;
                sourceBalance' <- Account_GetBalance sourceAccount ;;
                Account_UpdateBalance sourceAccount (sub sourceBalance' (Amount amount)) ;;
                targetBalance <- Account_GetBalance targetAccount ;;
                Account_UpdateBalance targetAccount (add targetBalance (Amount amount)) ;;
                _ <-? TransactionRepositoryImpl.Save tx ;;
                _ <-? AccountRepositoryImpl.Save sourceAccount ;;
                _ <-? AccountRepositoryImpl.Save targetAccount ;;
                Transaction_Complete tx ;;
                Ret (Ok tx)
        end
    end.

(** The body of the loop of [ProcessPendingTransactions] for one [tx]. *)
Definition process_one (tx : ptr) : Prog unit :=
  pending <- Transaction_IsPending tx ;;
  if pending then
    Transaction_Complete tx ;;
    r <- TransactionRepositoryImpl.Save tx ;;
    match r with
    | Ok _ => Ret tt
    | Err _ =>
        Transaction_Fail tx ;;
        _ <- TransactionRepositoryImpl.Save tx ;;
        Ret tt
    end
  else Ret tt.

Fixpoint process_all (pendingTxs : list ptr) : Prog unit :=
  match pendingTxs with
  | [] => Ret tt
  | tx :: rest => process_one tx ;; process_all rest
  end.

Definition ProcessPendingTransactions (iter : list string) : Prog (Result unit) :=
  pendingTxs <-? TransactionRepositoryImpl.GetPendingTransactions iter ;;
  process_all pendingTxs ;;
  Ret (Ok tt).

End services.

(** ** Stepping and interleaving *)

(** One atomic step of a program, if it has one left. *)
Definition step {A : Type} (p : Prog A) (w : World) : option (Prog A * World) :=
  match p with
  | Ret _ => Some (p, w)
  | Atomic act k =>
      match act w with
      | Some (x, w') => Some (k x, w')
      | None => None
      end
  end.

(** Two goroutines under a schedule: [true] lets the first one take its
    next atomic step, [false] the second one. *)
Fixpoint interleave {A B : Type} (sched : list bool) (p : Prog A) (q : Prog B)
    (w : World) : option (Prog A * Prog B * World) :=
  match sched with
  | [] => Some (p, q, w)
  | true :: sched' =>
      match step p w with
      | Some (p', w') => interleave sched' p' q w'
      | None => None
      end
  | false :: sched' =>
      match step q w with
      | Some (q', w') => interleave sched' p q' w'
      | None => None
      end
  end.

(** The value a finished program returned. *)
Definition returned {A : Type} (p : Prog A) : option A :=
  match p with
  | Ret a => Some a
  | Atomic _ _ => None
  end.

(** ** Store entries and observations *)

(** The entry of account [id] in the store: the pointer [p] under key
    [id], to the object [a].  The key is the account's own, non-empty ID,
    as for every entry that [Save] has written. *)
Definition stored_account (w : World) (id : string) (p : ptr) (a : Account.t) : Prop :=
  accounts w !! id = Some p /\ account_objs w !! p = Some a /\
  Account.ID a = id /\ id <> EmptyString.

(** Every pointer in the transaction store points to an object. *)
Definition transactions_valid (w : World) : Prop :=
  map_Forall (fun (_ : string) (p : ptr) => is_Some (transaction_objs w !! p))
             (transactions w).

(** The operations an owner of a transaction can apply to it. *)
Inductive TxOp : Type :=
| OpComplete
| OpFail.

Definition apply_op (now : Time) (op : TxOp) (x : Transaction.t) : Transaction.t :=
  match op with
  | OpComplete => Transaction.Complete_at now x
  | OpFail => Transaction.Fail_at now x
  end.

(** The operations [ops] applied in turn, the clock starting at [now]. *)
Fixpoint apply_ops (now : Time) (ops : list TxOp) (x : Transaction.t) : Transaction.t :=
  match ops with
  | [] => x
  | op :: ops' => apply_ops (S now) ops' (apply_op now op x)
  end.

Definition is_terminal (s : Transaction.TransactionStatus) : bool :=
  match s with
  | Transaction.TransactionStatusPending => false
  | _ => true
  end.

(** The exact value of a finite [float64] in units of [2^e0], when it is a
    whole number of them. *)
Definition exact_units (e0 : Z) (x : float64) : option Z :=
  match x with
  | S754_zero _ => Some 0%Z
  | S754_finite s m e =>
      if (e0 <=? e)%Z then Some (cond_Zopp s (Zpos m) * 2 ^ (e - e0))%Z else None
  | _ => None
  end.

(** The exact sum of two finite [float64] values in units of [2^e0]. *)
Definition exact_sum (e0 : Z) (x y : float64) : option Z :=
  match exact_units e0 x, exact_units e0 y with
  | Some a, Some b => Some (a + b)%Z
  | _, _ => None
  end.

(** ** Scenarios: concrete stores, built through the code itself *)

Module Scenarios.

Import services.

Definition usd (x : float64) : Money := NewMoney x CurrencyUSD.

(** A fixture: an account [id] holding [balance], created with
    [NewAccount] and written with the repository and the account
    service. *)
Definition open_account (id : string) (balance : float64) : Prog (Result unit) :=
  account <- entities.NewAccount id "owner" "owner@example.com"
               Account.AccountTypePersonal ;;
  _ <-? AccountRepositoryImpl.Save account ;;
  UpdateAccountBalance id balance.

(** Both balances as a reader gets them from the account service. *)
Definition read_balances (id1 id2 : string) : Prog (Result Money * Result Money) :=
  b1 <- GetAccountBalance id1 ;;
  b2 <- GetAccountBalance id2 ;;
  Ret (b1, b2).

(** acc_A holds 0.20 and acc_B holds 0.40; 0.10 goes from acc_A to acc_B. *)
Definition transfer_of_ten_cents
    : Prog (Result ptr * (Result Money * Result Money) * (Result Money * Result Money)) :=
  _ <- open_account "acc_A" (dec 20 2) ;;
  _ <- open_account "acc_B" (dec 40 2) ;;
  before <- read_balances "acc_A" "acc_B" ;;
  r <- CreateTransfer "acc_A" "acc_B" (usd (dec 10 2)) ;;
  after <- read_balances "acc_A" "acc_B" ;;
  Ret (r, before, after).

(** An account overdrawn to -5, then a withdrawal of -1. *)
Definition withdraw_from_overdrawn : Prog (Result float64 * Result ptr) :=
  _ <- CreateAccount [] "owner" "owner@example.com" Account.AccountTypePersonal ;;
  _ <- UpdateAccountBalance generateAccountID (of_Z (-5)) ;;
  b <- AccountRepositoryImpl.GetBalance generateAccountID ;;
  r <- CreateWithdrawal generateAccountID (usd (of_Z (-1))) ;;
  Ret (b, r).

(** Two deposits of 1e308 overflow the balance to +Inf; the whole
    balance is then withdrawn. *)
Definition withdraw_infinite_balance
    : Prog (Result float64 * Result ptr * Result float64) :=
  _ <- CreateAccount [] "owner" "owner@example.com" Account.AccountTypePersonal ;;
  _ <- CreateDeposit generateAccountID (usd (of_Z (10 ^ 308))) ;;
  _ <- CreateDeposit generateAccountID (usd (of_Z (10 ^ 308))) ;;
  b <- AccountRepositoryImpl.GetBalance generateAccountID ;;
  r <- CreateWithdrawal generateAccountID (usd pInf) ;;
  b' <- AccountRepositoryImpl.GetBalance generateAccountID ;;
  Ret (b, r, b').

(** A new transaction is completed, then failed. *)
Definition complete_then_fail
    : Prog (option Transaction.t * option Transaction.t) :=
  tx <- entities.NewTransaction "tx_1" "acc_A" Transaction.TransactionTypeDeposit
          (of_Z 1) ;;
  entities.Transaction_Complete tx ;;
  x1 <- atomic (fun w => Some (transaction_objs w !! tx, w)) ;;
  entities.Transaction_Fail tx ;;
  x2 <- atomic (fun w => Some (transaction_objs w !! tx, w)) ;;
  Ret (x1, x2).

(** After a transfer from acc_A to acc_B: the target id the stored
    transaction records, and the transactions found for acc_B. *)
Definition transactions_of_target
    : Prog (Result ptr * Result string * Result (list ptr)) :=
  _ <- open_account "acc_A" (of_Z 100) ;;
  _ <- open_account "acc_B" (of_Z 0) ;;
  r <- CreateTransfer "acc_A" "acc_B" (usd (of_Z 40)) ;;
  target <- (tx <-? TransactionRepositoryImpl.FindByID generateTransactionID ;;
             id <- read_transaction Transaction.TargetAccountID tx ;;
             Ret (Ok id)) ;;
  l <- TransactionRepositoryImpl.FindByAccountID [generateTransactionID] "acc_B" ;;
  Ret (r, target, l).

(** Two transactions of acc_A, t1 created before t2, and a visit of
    the store that meets t2 first. *)
Definition two_transactions : Prog (ptr * ptr) :=
  t1 <- entities.NewTransaction "t1" "acc_A" Transaction.TransactionTypeDeposit
          (of_Z 1) ;;
  _ <- TransactionRepositoryImpl.Save t1 ;;
  t2 <- entities.NewTransaction "t2" "acc_A" Transaction.TransactionTypeDeposit
          (of_Z 2) ;;
  _ <- TransactionRepositoryImpl.Save t2 ;;
  Ret (t1, t2).

(** Two accounts are created, then two deposits are made. *)
Definition two_accounts_two_deposits
    : Prog (Result ptr * Result ptr * Result ptr * Result ptr) :=
  a1 <- CreateAccount [] "owner1" "one@example.com" Account.AccountTypePersonal ;;
  a2 <- CreateAccount [generateAccountID] "owner2" "two@example.com"
          Account.AccountTypePersonal ;;
  t1 <- CreateDeposit generateAccountID (usd (of_Z 10)) ;;
  t2 <- CreateDeposit generateAccountID (usd (of_Z 20)) ;;
  Ret (a1, a2, t1, t2).

(** acc_A holds 100 and acc_B holds 0. *)
Definition hundred_and_zero : Prog (Result unit) :=
  _ <- open_account "acc_A" (of_Z 100) ;;
  open_account "acc_B" (of_Z 0).

(** A closed account, as a caller of the repository can store it. *)
Definition closed_account : Account.t :=
  Account.mk "acc_C" "owner" "owner@example.com" Account.AccountTypePersonal
    Account.AccountStatusClosed zero 0 0.

(** A store with the single active account acc_A holding [balance]. *)
Definition account_A (balance : float64) : Account.t :=
  Account.mk "acc_A" "owner" "owner@example.com" Account.AccountTypePersonal
    Account.AccountStatusActive balance 0 0.

Definition account_B (balance : float64) : Account.t :=
  Account.mk "acc_B" "owner" "owner@example.com" Account.AccountTypePersonal
    Account.AccountStatusActive balance 0 0.

Definition world_A (balance : float64) : World :=
  mkWorld 1 [account_A balance] [] {["acc_A" := 0]} ∅.

Definition world_AB (balanceA balanceB : float64) : World :=
  mkWorld 2 [account_A balanceA; account_B balanceB] []
    (<["acc_B" := 1]> {["acc_A" := 0]}) ∅.

(** A store with one pending and one completed transaction. *)
Definition pending_tx : Transaction.t :=
  Transaction.NewTransaction_at 0 "t1" "acc_A" Transaction.TransactionTypeDeposit (of_Z 1).
Definition completed_tx : Transaction.t :=
  Transaction.Complete_at 2
    (Transaction.NewTransaction_at 1 "t2" "acc_A" Transaction.TransactionTypeDeposit
       (of_Z 2)).
Definition world_tx : World :=
  mkWorld 3 [] [pending_tx; completed_tx] ∅ (<["t2" := 1]> {["t1" := 0]}).

End Scenarios.

(** ** package entities: AccountV2 *)

Module AccountV2.

Record t : Type := mk {
  ID : string;
  OwnerID : string;
  EmailAddress : string;
  AcctType : Account.AccountType;
  AcctStatus : Account.AccountStatus;
  BalanceAmt : float64;
  CreatedAt : Time;
  UpdatedAt : Time
}.

(** The fields of the object [NewAccountV2] allocates, at time [now]. *)
Definition NewAccountV2_at (now : Time) (id ownerID email : string)
    (accountType : Account.AccountType) : t :=
  mk id ownerID email accountType Account.AccountStatusActive zero now now.

Definition IsActive (a : t) : bool :=
  Account.AccountStatus_eqb (AcctStatus a) Account.AccountStatusActive.
Definition GetBalance (a : t) : float64 := BalanceAmt a.
Definition GetEmail (a : t) : string := EmailAddress a.

Definition UpdateBalance_at (now : Time) (amount : float64) (a : t) : t :=
  mk (ID a) (OwnerID a) (EmailAddress a) (AcctType a) (AcctStatus a) amount
     (CreatedAt a) now.

Definition Suspend_at (now : Time) (a : t) : t :=
  mk (ID a) (OwnerID a) (EmailAddress a) (AcctType a) Account.AccountStatusSuspended
     (BalanceAmt a) (CreatedAt a) now.

(** [MigrateToV2]: the fields of the new object, read from the old one. *)
Definition MigrateToV2 (old : Account.t) : t :=
  mk (Account.ID old) (Account.OwnerID old) (Account.Email old)
     (Account.AccountType_ old) (Account.Status old) (Account.Balance old)
     (Account.CreatedAt old) (Account.UpdatedAt old).

End AccountV2.

(** ** package commands *)

Module CreateAccountCommand.
Record t : Type := mk {
  OwnerID : string;
  Email : string;
  AccountType_ : Account.AccountType
}.
End CreateAccountCommand.

Module DepositCommand.
Record t : Type := mk {
  AccountID : string;
  Amount : float64;
  Currency_ : Currency
}.
End DepositCommand.

Module TransferCommand.
Record t : Type := mk {
  SourceAccountID : string;
  TargetAccountID : string;
  Amount : float64;
  Currency_ : Currency
}.
End TransferCommand.

Module SuspendAccountCommand.
Record t : Type := mk {
  AccountID : string;
  Reason : string
}.
End SuspendAccountCommand.

Module commands.

(** [CreateAccountHandler.Handle] *)
Definition CreateAccountHandler_Handle (iter : list string) (cmd : CreateAccountCommand.t)
    : Prog (Result ptr) :=
  services.CreateAccount iter (CreateAccountCommand.OwnerID cmd)
    (CreateAccountCommand.Email cmd) (CreateAccountCommand.AccountType_ cmd).

(** [DepositHandler.Handle] *)
Definition DepositHandler_Handle (cmd : DepositCommand.t) : Prog (Result ptr) :=
  let money := NewMoney (DepositCommand.Amount cmd) (DepositCommand.Currency_ cmd) in
  services.CreateDeposit (DepositCommand.AccountID cmd) money.

(** [TransferHandler.Handle] *)
Definition TransferHandler_Handle (cmd : TransferCommand.t) : Prog (Result ptr) :=
  let money := NewMoney (TransferCommand.Amount cmd) (TransferCommand.Currency_ cmd) in
  services.CreateTransfer (TransferCommand.SourceAccountID cmd)
    (TransferCommand.TargetAccountID cmd) money.

(** [SuspendAccountHandler.Handle] *)
Definition SuspendAccountHandler_Handle (cmd : SuspendAccountCommand.t)
    : Prog (Result unit) :=
  services.SuspendAccount (SuspendAccountCommand.AccountID cmd).

End commands.

(** ** package auth: sessions *)

(** A [time.Time] of a session is a number of nanoseconds and a
    [time.Duration] a signed number of nanoseconds; [t.Add d] is their sum
    (far from the ends of the range of [time.Time], as every reading of a
    real clock is) and [t.After u] is [u < t]. *)
Module Session.

Record t : Type := mk {
  ID : string;
  UserID : string;
  ExpiresAt : Z;
  IsValid : bool;
  Token : string
}.

Section WithFormat.

(** [t.Format "20060102150405"], of the standard library. *)
Variable format : Z -> string.

(** [generateSessionID] at time [now]. *)
Definition generateSessionID_at (now : Z) : string := "session_" ++ format now.

(** [NewSession]: the clock is read for the ID at [now1], then for the
    expiry at [now2]. *)
Definition NewSession_at (now1 now2 : Z) (userID token : string) (expiry : Z) : t :=
  mk (generateSessionID_at now1) userID (now2 + expiry)%Z true token.

End WithFormat.

(** [time.Now().After(s.ExpiresAt)] at time [now]. *)
Definition IsExpired_at (now : Z) (s : t) : bool := (ExpiresAt s <? now)%Z.

Definition IsActive_at (now : Z) (s : t) : bool := IsValid s && negb (IsExpired_at now s).

Definition Validate_at (now : Z) (s : t) : bool := IsActive_at now s.

Definition Invalidate (s : t) : t :=
  mk (ID s) (UserID s) (ExpiresAt s) false (Token s).

(** [s.ExpiresAt = time.Now().Add(duration)] at time [now]. *)
Definition Extend_at (now : Z) (duration : Z) (s : t) : t :=
  mk (ID s) (UserID s) (now + duration)%Z (IsValid s) (Token s).

Definition GetUserID (s : t) : string := UserID s.

(** A run of [Extend] calls, each with the time of the call and its
    duration. *)
Fixpoint Extend_all (calls : list (Z * Z)) (s : t) : t :=
  match calls with
  | [] => s
  | (now, duration) :: calls' => Extend_all calls' (Extend_at now duration s)
  end.

End Session.

(** ** Store invariants *)

(** The entry of transaction [id] in the store, as [Save] writes it. *)
Definition stored_transaction (w : World) (id : string) (p : ptr) (x : Transaction.t)
    : Prop :=
  transactions w !! id = Some p /\ transaction_objs w !! p = Some x /\
  Transaction.ID x = id /\ id <> EmptyString.

(** Every entry of both stores is under the object's own, non-empty ID. *)
Definition accounts_wf (w : World) : Prop :=
  forall id p, accounts w !! id = Some p -> exists a, stored_account w id p a.

Definition transactions_wf (w : World) : Prop :=
  forall id p, transactions w !! id = Some p -> exists x, stored_transaction w id p x.

Definition store_wf (w : World) : Prop := accounts_wf w /\ transactions_wf w.

(** Every atomic step of the program keeps [P]. *)
Fixpoint steps_preserve {A : Type} (P : World -> Prop) (p : Prog A) : Prop :=
  match p with
  | Ret _ => True
  | Atomic act k =>
      (forall w x w', P w -> act w = Some (x, w') -> P w') /\
      (forall x, steps_preserve P (k x))
  end.

(** The calls a client of the two services can make. *)
Inductive Call : Type :=
| CallCreateAccount (iter : list string) (ownerID email : string)
    (accountType : Account.AccountType)
| CallUpdateAccountBalance (id : string) (amount : float64)
| CallSuspendAccount (id : string)
| CallGetAccountBalance (id : string)
| CallGetAccountTransactions (iter : list string) (accountID : string)
| CallCreateDeposit (accountID : string) (amount : Money)
| CallCreateWithdrawal (accountID : string) (amount : Money)
| CallCreateTransfer (sourceAccountID targetAccountID : string) (amount : Money)
| CallProcessPendingTransactions (iter : list string).

(** The call, its result dropped. *)
Definition perform (c : Call) : Prog unit :=
  match c with
  | CallCreateAccount iter ownerID email accountType =>
      _ <- services.CreateAccount iter ownerID email accountType ;; Ret tt
  | CallUpdateAccountBalance id amount =>
      _ <- services.UpdateAccountBalance id amount ;; Ret tt
  | CallSuspendAccount id => _ <- services.SuspendAccount id ;; Ret tt
  | CallGetAccountBalance id => _ <- services.GetAccountBalance id ;; Ret tt
  | CallGetAccountTransactions iter accountID =>
      _ <- services.GetAccountTransactions iter accountID ;; Ret tt
  | CallCreateDeposit accountID amount =>
      _ <- services.CreateDeposit accountID amount ;; Ret tt
  | CallCreateWithdrawal accountID amount =>
      _ <- services.CreateWithdrawal accountID amount ;; Ret tt
  | CallCreateTransfer sourceAccountID targetAccountID amount =>
      _ <- services.CreateTransfer sourceAccountID targetAccountID amount ;; Ret tt
  | CallProcessPendingTransactions iter =>
      _ <- services.ProcessPendingTransactions iter ;; Ret tt
  end.

Fixpoint perform_all (cs : list Call) : Prog unit :=
  match cs with
  | [] => Ret tt
  | c :: cs' => perform c ;; perform_all cs'
  end.

(** ** More fixtures *)

Module Fixtures.

Import Scenarios.

(** An account object that is allocated and not stored yet. *)
Definition world_unsaved (a : Account.t) : World := mkWorld 1 [a] [] ∅ ∅.

(** A transaction object that is allocated and not stored yet. *)
Definition world_unsaved_tx (x : Transaction.t) : World := mkWorld 1 [] [x] ∅ ∅.

Definition nameless_account : Account.t :=
  Account.mk EmptyString "owner" "owner@example.com" Account.AccountTypePersonal
    Account.AccountStatusActive zero 0 0.

Definition nameless_tx : Transaction.t :=
  Transaction.NewTransaction_at 0 EmptyString "acc_A" Transaction.TransactionTypeDeposit
    (of_Z 1).

Definition suspended_A (balance : float64) : Account.t :=
  Account.mk "acc_A" "owner" "owner@example.com" Account.AccountTypePersonal
    Account.AccountStatusSuspended balance 0 0.

(** A store with the single suspended account acc_A holding [balance]. *)
Definition world_suspended (balance : float64) : World :=
  mkWorld 1 [suspended_A balance] [] {["acc_A" := 0]} ∅.

(** acc_A is active, acc_B is suspended. *)
Definition world_A_suspended_B (balanceA balanceB : float64) : World :=
  mkWorld 2
    [account_A balanceA;
     Account.mk "acc_B" "owner" "owner@example.com" Account.AccountTypePersonal
       Account.AccountStatusSuspended balanceB 0 0]
    [] (<["acc_B" := 1]> {["acc_A" := 0]}) ∅.

(** A client session: an account, a deposit, a withdrawal, a refused
    withdrawal, and the processing of pending transactions. *)
Definition client_calls : list Call :=
  [ CallCreateAccount [] "owner" "owner@example.com" Account.AccountTypePersonal;
    CallCreateDeposit services.generateAccountID (usd (of_Z 100));
    CallCreateWithdrawal services.generateAccountID (usd (of_Z 30));
    CallCreateWithdrawal services.generateAccountID (usd (of_Z 500));
    CallProcessPendingTransactions [services.generateTransactionID] ].

End Fixtures.

(** * Properties *)

(** ** Proof automation *)

(** Side conditions: a pointer is within the heap. *)
Ltac solve_len :=
  repeat rewrite length_insert;
  first [ eapply lookup_lt_Some; eassumption
        | rewrite length_app; simpl; lia ].

(** Rewriting with what is known about the heap and the stores. *)
Ltac use_lookups :=
  match goal with
  | H : ?m !! ?k = Some _ |- context [?m !! ?k] => rewrite H
  | H : ?b = true |- context [?b] => rewrite H
  | H : ?b = false |- context [?b] => rewrite H
  | |- context [(?h ++ [?x])%list !! List.length ?h] =>
      rewrite (list_lookup_middle h [] x (List.length h) eq_refl)
  | |- context [<[?p := ?y]> ?h !! ?p] =>
      rewrite (list_lookup_insert_eq h p y) by solve_len
  | H : ?p <> ?q |- context [<[?p := ?y]> ?h !! ?q] =>
      rewrite (list_lookup_insert_ne h p q y H)
  | H : ?q <> ?p |- context [<[?p := ?y]> ?h !! ?q] =>
      rewrite (list_lookup_insert_ne h p q y (not_eq_sym H))
  | |- context [<[?k := ?v]> ?m !! ?k] => rewrite (lookup_insert_eq m k v)
  | H : ?k <> ?k' |- context [<[?k := ?v]> ?m !! ?k'] =>
      rewrite (lookup_insert_ne m k k' v H)
  | H : ?k' <> ?k |- context [<[?k := ?v]> ?m !! ?k'] =>
      rewrite (lookup_insert_ne m k k' v (not_eq_sym H))
  | |- context [String.eqb services.generateTransactionID EmptyString] =>
      change (String.eqb services.generateTransactionID EmptyString) with false
  end.

(** Symbolic execution of [run]. *)
Ltac exec :=
  repeat first [progress cbn | progress unfold Account.GetBalance | use_lookups].

(** A concrete store entry. *)
Ltac stored :=
  split; [vm_compute; reflexivity|]; split; [reflexivity|];
  split; [reflexivity | discriminate].

(** ** float64 facts *)

Lemma SFcompare_antisym (x y : float64) :
  SFcompare y x = option_map CompOpp (SFcompare x y).
Proof.
  destruct x as [sx|sx| |sx mx ex], y as [sy|sy| |sy my ey]; simpl;
    try reflexivity;
    try (destruct sx; reflexivity); try (destruct sy; reflexivity);
    try (destruct sx, sy; reflexivity).
  destruct sx, sy; simpl; try reflexivity.
  - rewrite (Z.compare_antisym ex ey).
    destruct (ex ?= ey)%Z eqn:E; simpl; try reflexivity.
    rewrite (Pos.compare_cont_antisym mx my Eq). reflexivity.
  - rewrite (Z.compare_antisym ex ey).
    destruct (ex ?= ey)%Z eqn:E; simpl; try reflexivity.
    rewrite (Pos.compare_cont_antisym mx my Eq). reflexivity.
Qed.

Lemma leb_not_ltb (x y : float64) : leb x y = true -> ltb y x = false.
Proof.
  unfold leb, ltb, SFleb, SFltb. rewrite (SFcompare_antisym x y).
  destruct (SFcompare x y) as [[]|]; simpl; congruence.
Qed.

Lemma ltb_irrefl (x : float64) : ltb x x = false.
Proof.
  unfold ltb, SFltb.
  destruct x as [s|s| |s m e]; simpl; try reflexivity.
  - destruct s; reflexivity.
  - rewrite Z.compare_refl.
    assert (H : Pos.compare_cont Eq m m = Eq) by apply Pos.compare_refl.
    rewrite H. destruct s; reflexivity.
Qed.

Lemma positive_finite (x : float64) :
  ltb zero x = true -> is_finite x = true -> exists m e, x = S754_finite false m e.
Proof.
  destruct x as [s|s| |s m e]; simpl; try discriminate.
  destruct s; [discriminate|]. intros _ _. eauto.
Qed.

Lemma sub_diag_finite (s : bool) (m : positive) (e : Z) :
  sub (S754_finite s m e) (S754_finite s m e) = zero.
Proof.
  unfold sub, SFsub. cbv zeta. rewrite Z.sub_diag. reflexivity.
Qed.

(** ** Execution lemmas *)

Lemma run_bind {A B : Type} (p : Prog A) (f : A -> Prog B) (w : World) :
  run (bind p f) w =
  match run p w with
  | Some (a, w') => run (f a) w'
  | None => None
  end.
Proof.
  revert w. induction p as [a | X act k IH]; intros w; simpl; [reflexivity|].
  destruct (act w) as [[x w']|]; [apply IH | reflexivity].
Qed.

Lemma stored_account_distinct (w : World) (id1 id2 : string) (p1 p2 : ptr)
    (a1 a2 : Account.t) :
  id1 <> id2 -> stored_account w id1 p1 a1 -> stored_account w id2 p2 a2 -> p1 <> p2.
Proof.
  intros Hne (_ & H1 & E1 & _) (_ & H2 & E2 & _) ->.
  rewrite H1 in H2. injection H2 as ->. congruence.
Qed.

(** The entries of the account store are those [Save] writes: under the
    account's own, non-empty ID. *)
Lemma Save_writes_stored_account (w : World) (p : ptr) (a : Account.t) :
  account_objs w !! p = Some a ->
  Account.ID a <> EmptyString ->
  exists w',
    run (AccountRepositoryImpl.Save p) w = Some (Ok tt, w') /\
    stored_account w' (Account.ID a) p a.
Proof.
  intros Hp Hne. pose proof (proj2 (String.eqb_neq _ _) Hne) as Hneb.
  unfold AccountRepositoryImpl.Save. exec.
  eexists. split; [reflexivity|].
  split; [exec; reflexivity|]. split; [exact Hp|]. split; [reflexivity | exact Hne].
Qed.

Lemma range_values_stored (m : gmap string ptr) (iter : list string) (q : ptr) :
  q ∈ range_values m iter -> exists k, m !! k = Some q.
Proof.
  unfold range_values. rewrite list_elem_of_omap. intros (k & _ & Hk). eauto.
Qed.

Lemma range_values_elem (m : gmap string ptr) (iter : list string) (q : ptr) :
  range_order m iter ->
  q ∈ range_values m iter <-> exists k, m !! k = Some q.
Proof.
  intros Hperm. split; [apply range_values_stored|].
  intros (k & Hk). unfold range_values. rewrite list_elem_of_omap.
  exists k. split; [|assumption].
  rewrite Hperm. apply list_elem_of_fmap. exists (k, q). split; [reflexivity|].
  apply elem_of_map_to_list. assumption.
Qed.

Lemma select_objs_spec {T : Type} (h : list T) (f : T -> bool) (ps : list ptr) :
  (forall p, p ∈ ps -> is_Some (h !! p)) ->
  exists r, select_objs h f ps = Some r /\ sublist r ps /\
    forall q, q ∈ r <-> q ∈ ps /\ exists x, h !! q = Some x /\ f x = true.
Proof.
  induction ps as [|p ps IH]; intros Hvalid.
  - exists []. split; [reflexivity|]. split; [constructor|]. intros q. split.
    + intros Hq. inversion Hq.
    + intros (Hq & _). inversion Hq.
  - destruct (Hvalid p) as [x Hx]; [left|].
    destruct IH as (r & Hr & Hsub & Hspec).
    { intros q Hq. apply Hvalid. right. assumption. }
    simpl. rewrite Hx, Hr. eexists. split; [reflexivity|].
    split; [destruct (f x); constructor; assumption|].
    intros q. destruct (f x) eqn:Hf.
    + rewrite !elem_of_cons, Hspec. split.
      * intros [-> | (Hq & Hx')];
          [split; [left; reflexivity | eauto] | split; [right|]; assumption].
      * intros ([-> | Hq] & Hx'); [left; reflexivity | right; split; assumption].
    + rewrite elem_of_cons, Hspec. split.
      * intros (Hq & Hx'). split; [right|]; assumption.
      * intros ([-> | Hq] & (x' & Hx' & Hf')); [congruence | split; eauto].
Qed.

Lemma transactions_valid_range (w : World) (iter : list string) (p : ptr) :
  transactions_valid w -> p ∈ range_values (transactions w) iter ->
  is_Some (transaction_objs w !! p).
Proof.
  intros Hv Hp. apply range_values_stored in Hp as (k & Hk).
  exact (Hv k p Hk).
Qed.

Import services entities Scenarios.

(** The scenario of the specification: an account is created; a deposit
    of 100 completes and the balance is 100; a withdrawal of 150 is
    refused and the balance is still 100; once the account is suspended a
    deposit is refused. *)
Example ledger_scenario :
  fst <$> run
    (a <- CreateAccount [] "owner" "owner@example.com" Account.AccountTypePersonal ;;
     d <- CreateDeposit generateAccountID (usd (of_Z 100)) ;;
     b1 <- GetAccountBalance generateAccountID ;;
     wd <- CreateWithdrawal generateAccountID (usd (of_Z 150)) ;;
     b2 <- GetAccountBalance generateAccountID ;;
     s <- SuspendAccount generateAccountID ;;
     d' <- CreateDeposit generateAccountID (usd (of_Z 1)) ;;
     Ret (a, d, b1, wd, b2, s, d'))
    (empty_world 0)
  = Some (Ok 0, Ok 0, Ok (usd (of_Z 100)), Err "insufficient balance",
          Ok (usd (of_Z 100)), Ok tt, Err "account is not active").
Proof. vm_compute. reflexivity. Qed.

(** ** C1: transfers *)

(** C1 (amended). A transfer between two distinct, existing, active
    accounts whose source balance is at least the amount returns a
    transaction of type Transfer with status Completed; a reader of the
    store then finds the source balance minus the amount on the source and
    the target balance plus the amount on the target, each rounded to
    float64. *)
Theorem C1_transfer_moves_amount (w : World) (sourceAccountID targetAccountID : string)
    (amount : Money) (ps pt : ptr) (s t : Account.t) :
  sourceAccountID <> targetAccountID ->
  stored_account w sourceAccountID ps s ->
  stored_account w targetAccountID pt t ->
  Account.IsActive s = true ->
  Account.IsActive t = true ->
  leb (Amount amount) (Account.Balance s) = true ->
  exists (tx : ptr) (w' : World) (x : Transaction.t),
    run (CreateTransfer sourceAccountID targetAccountID amount) w = Some (Ok tx, w') /\
    transaction_objs w' !! tx = Some x /\
    Transaction.Type_ x = Transaction.TransactionTypeTransfer /\
    Transaction.Status x = Transaction.TransactionStatusCompleted /\
    run (AccountRepositoryImpl.GetBalance sourceAccountID) w'
      = Some (Ok (sub (Account.Balance s) (Amount amount)), w') /\
    run (AccountRepositoryImpl.GetBalance targetAccountID) w'
      = Some (Ok (add (Account.Balance t) (Amount amount)), w').
Proof.
  intros Hids Hs Ht Hsact Htact Hle.
  pose proof (stored_account_distinct _ _ _ _ _ _ _ Hids Hs Ht) as Hptr.
  destruct Hs as (Hks & Hps & Hsid & Hsne), Ht as (Hkt & Hpt & Htid & Htne).
  apply String.eqb_neq in Hsne, Htne.
  pose proof (proj2 (String.eqb_neq _ _) Hids) as Hneq.
  apply leb_not_ltb in Hle.
  unfold CreateTransfer.
  exec. rewrite Hsid. exec. rewrite Htid. exec.
  do 3 eexists. split; [reflexivity|]. exec.
  repeat split; reflexivity.
Qed.

(** C1 at acc_A = 100, acc_B = 0 and a transfer of 40. *)
Lemma C1_transfer_moves_amount_witness :
  exists (tx : ptr) (w' : World) (x : Transaction.t),
    run (CreateTransfer "acc_A" "acc_B" (usd (of_Z 40)))
        (world_AB (of_Z 100) (of_Z 0)) = Some (Ok tx, w') /\
    transaction_objs w' !! tx = Some x /\
    Transaction.Type_ x = Transaction.TransactionTypeTransfer /\
    Transaction.Status x = Transaction.TransactionStatusCompleted /\
    run (AccountRepositoryImpl.GetBalance "acc_A") w'
      = Some (Ok (sub (of_Z 100) (of_Z 40)), w') /\
    run (AccountRepositoryImpl.GetBalance "acc_B") w'
      = Some (Ok (add (of_Z 0) (of_Z 40)), w').
Proof.
  apply (C1_transfer_moves_amount (world_AB (of_Z 100) (of_Z 0)) "acc_A" "acc_B"
           (usd (of_Z 40)) 0 1 (account_A (of_Z 100)) (account_B (of_Z 0))).
  - discriminate.
  - stored.
  - stored.
  - reflexivity.
  - reflexivity.
  - vm_compute. reflexivity.
Defined.

(** C1 as stated fails: acc_A holds 0.20, acc_B holds 0.40 and 0.10 is
    transferred.  The transfer succeeds; the reader then finds 0.10 and
    0.50, whose sum differs from the sum before, in float64 arithmetic and
    exactly (in units of 2^-56). *)
Lemma C1_rounding_breaks_conservation :
  fst <$> run transfer_of_ten_cents (empty_world 0)
    = Some (Ok 0, (Ok (usd (dec 20 2)), Ok (usd (dec 40 2))),
                  (Ok (usd (dec 10 2)), Ok (usd (dec 50 2)))) /\
  leb (dec 10 2) (dec 20 2) = true /\
  add (dec 10 2) (dec 50 2) <> add (dec 20 2) (dec 40 2) /\
  exact_sum (-56) (dec 20 2) (dec 40 2) = Some 43234556422756764%Z /\
  exact_sum (-56) (dec 10 2) (dec 50 2) = Some 43234556422756762%Z.
Proof.
  split; [vm_compute; reflexivity|].
  split; [vm_compute; reflexivity|].
  split; [vm_compute; discriminate|].
  split; vm_compute; reflexivity.
Qed.

(** ** C2: deposits *)

(** C2. A deposit of a positive amount into an existing active account
    returns a transaction of type Deposit with status Completed, and a
    reader of the store then finds the balance before plus the amount
    (float64 addition). *)
Theorem C2_deposit_adds_amount (w : World) (accountID : string) (amount : Money)
    (p : ptr) (a : Account.t) :
  IsPositive amount = true ->
  stored_account w accountID p a ->
  Account.IsActive a = true ->
  exists (tx : ptr) (w' : World) (x : Transaction.t),
    run (CreateDeposit accountID amount) w = Some (Ok tx, w') /\
    run (AccountRepositoryImpl.GetBalance accountID) w'
      = Some (Ok (add (Account.Balance a) (Amount amount)), w') /\
    transaction_objs w' !! tx = Some x /\
    Transaction.Type_ x = Transaction.TransactionTypeDeposit /\
    Transaction.Status x = Transaction.TransactionStatusCompleted.
Proof.
  intros Hpos (Hk & Hp & Hid & Hne) Hact.
  apply String.eqb_neq in Hne.
  unfold CreateDeposit. exec. rewrite Hid. exec.
  do 3 eexists. split; [reflexivity|]. exec.
  repeat split; reflexivity.
Qed.

(** C2 at acc_A = 0 and a deposit of 100. *)
Lemma C2_deposit_adds_amount_witness :
  exists (tx : ptr) (w' : World) (x : Transaction.t),
    run (CreateDeposit "acc_A" (usd (of_Z 100))) (world_A zero)
      = Some (Ok tx, w') /\
    run (AccountRepositoryImpl.GetBalance "acc_A") w'
      = Some (Ok (add zero (of_Z 100)), w') /\
    transaction_objs w' !! tx = Some x /\
    Transaction.Type_ x = Transaction.TransactionTypeDeposit /\
    Transaction.Status x = Transaction.TransactionStatusCompleted.
Proof.
  apply (C2_deposit_adds_amount (world_A zero) "acc_A" (usd (of_Z 100)) 0 (account_A zero)).
  - vm_compute. reflexivity.
  - stored.
  - reflexivity.
Defined.

(** ** C3: rejected withdrawals *)

(** C3 (amended). A withdrawal request on an existing account whose
    amount exceeds the balance always fails and leaves the whole store as
    it was; the error is the insufficient-balance one when the amount is
    positive, and the invalid-amount one (checked first) when it is not. *)
Theorem C3_withdrawal_rejected_store_unchanged (w : World) (accountID : string)
    (amount : Money) (p : ptr) (a : Account.t) :
  accounts w !! accountID = Some p ->
  account_objs w !! p = Some a ->
  ltb (Account.Balance a) (Amount amount) = true ->
  run (CreateWithdrawal accountID amount) w =
    Some (Err (if IsPositive amount then "insufficient balance"
               else "withdrawal amount must be positive"), w).
Proof.
  intros Hk Hp Hlt. unfold CreateWithdrawal.
  destruct (IsPositive amount); [|reflexivity].
  exec. reflexivity.
Qed.

(** C3 at acc_A = 100 and a withdrawal of 150. *)
Lemma C3_withdrawal_rejected_store_unchanged_witness :
  run (CreateWithdrawal "acc_A" (usd (of_Z 150))) (world_A (of_Z 100))
    = Some (Err "insufficient balance", world_A (of_Z 100)).
Proof.
  apply (C3_withdrawal_rejected_store_unchanged (world_A (of_Z 100)) "acc_A"
           (usd (of_Z 150)) 0 (account_A (of_Z 100))).
  - reflexivity.
  - reflexivity.
  - vm_compute. reflexivity.
Defined.

(** C3 as stated fails: the account holds -5 and -1 is requested.  The
    amount exceeds the balance, and the error is the invalid-amount one. *)
Lemma C3_negative_amount_other_error :
  fst <$> run withdraw_from_overdrawn (empty_world 0)
    = Some (Ok (of_Z (-5)), Err "withdrawal amount must be positive") /\
  ltb (of_Z (-5)) (of_Z (-1)) = true /\
  "withdrawal amount must be positive" <> "insufficient balance".
Proof.
  split; [vm_compute; reflexivity|].
  split; [vm_compute; reflexivity | discriminate].
Qed.

(** ** C4: the life cycle of a transaction *)

Lemma IsPending_terminal (x : Transaction.t) :
  Transaction.IsPending x = negb (is_terminal (Transaction.Status x)).
Proof. unfold Transaction.IsPending. destruct (Transaction.Status x); reflexivity. Qed.

Lemma apply_op_status (now : Time) (op : TxOp) (x : Transaction.t) :
  Transaction.Status (apply_op now op x) =
    match op with
    | OpComplete => Transaction.TransactionStatusCompleted
    | OpFail => Transaction.TransactionStatusFailed
    end /\
  Transaction.ProcessedAt (apply_op now op x) = Some now.
Proof. destruct op; split; reflexivity. Qed.

Lemma apply_ops_terminal (ops : list TxOp) (now : Time) (x : Transaction.t) :
  is_terminal (Transaction.Status x) = true ->
  is_terminal (Transaction.Status (apply_ops now ops x)) = true.
Proof.
  revert now x. induction ops as [|op ops IH]; intros now x Hx; simpl; [assumption|].
  apply IH. destruct op; reflexivity.
Qed.

(** What one turn of the loop of [ProcessPendingTransactions] does. *)
Lemma process_one_spec (tx : ptr) (w : World) :
  is_Some (transaction_objs w !! tx) ->
  exists w',
    run (process_one tx) w = Some (tt, w') /\
    (forall q, is_Some (transaction_objs w !! q) -> is_Some (transaction_objs w' !! q)) /\
    (forall q x, transaction_objs w !! q = Some x ->
       is_terminal (Transaction.Status x) = true -> transaction_objs w' !! q = Some x) /\
    (exists x', transaction_objs w' !! tx = Some x' /\
       is_terminal (Transaction.Status x') = true).
Proof.
  intros [x Hx]. unfold process_one.
  destruct (Transaction.IsPending x) eqn:Hpend.
  - assert (Hkeep : forall (y : Transaction.t) (h : list Transaction.t) q x0,
              transaction_objs w !! q = Some x0 ->
              is_terminal (Transaction.Status x0) = true ->
              <[tx := y]> h !! q = h !! q).
    { intros y h q x0 Hq Hterm. apply list_lookup_insert_ne. intros <-.
      rewrite Hx in Hq. injection Hq as <-.
      rewrite IsPending_terminal, Hterm in Hpend. discriminate. }
    assert (Hval : forall (y : Transaction.t) (h : list Transaction.t) q,
              is_Some (h !! q) -> is_Some (<[tx := y]> h !! q)).
    { intros y h q Hq. apply lookup_lt_is_Some. rewrite length_insert.
      apply lookup_lt_is_Some. assumption. }
    destruct (String.eqb (Transaction.ID x) EmptyString) eqn:Hid.
    + exec. eexists. split; [reflexivity|]. cbn. repeat split.
      * intros q Hq. apply Hval, Hval, Hq.
      * intros q x0 Hq Hterm.
        rewrite (Hkeep _ _ q x0 Hq Hterm), (Hkeep _ _ q x0 Hq Hterm). assumption.
      * eexists. split; [exec; reflexivity | reflexivity].
    + exec. eexists. split; [reflexivity|]. cbn. repeat split.
      * intros q Hq. apply Hval, Hq.
      * intros q x0 Hq Hterm. rewrite (Hkeep _ _ q x0 Hq Hterm). assumption.
      * eexists. split; [exec; reflexivity | reflexivity].
  - exec. exists w. repeat split; try tauto.
    exists x. split; [assumption|].
    rewrite IsPending_terminal in Hpend. destruct (is_terminal _); [reflexivity | discriminate].
Qed.

Lemma process_all_spec (pendingTxs : list ptr) (w : World) :
  (forall p, p ∈ pendingTxs -> is_Some (transaction_objs w !! p)) ->
  exists w',
    run (process_all pendingTxs) w = Some (tt, w') /\
    (forall q x, transaction_objs w !! q = Some x ->
       is_terminal (Transaction.Status x) = true -> transaction_objs w' !! q = Some x) /\
    (forall p, p ∈ pendingTxs ->
       exists x', transaction_objs w' !! p = Some x' /\
                  is_terminal (Transaction.Status x') = true).
Proof.
  revert w. induction pendingTxs as [|tx rest IH]; intros w Hvalid.
  - exists w. split; [reflexivity|]. split; [tauto|]. intros p Hp. inversion Hp.
  - destruct (process_one_spec tx w) as (w1 & Hrun1 & Hval1 & Hkeep1 & x1 & Hx1 & Hterm1).
    { apply Hvalid. left. }
    destruct (IH w1) as (w2 & Hrun2 & Hkeep2 & Hdone2).
    { intros p Hp. apply Hval1, Hvalid. right. assumption. }
    exists w2. split; [|split].
    + change (process_all (tx :: rest))
        with (bind (process_one tx) (fun _ => process_all rest)).
      rewrite run_bind, Hrun1. exact Hrun2.
    + intros q x Hq Hterm. eapply Hkeep2; [|eassumption]. eapply Hkeep1; eassumption.
    + intros p Hp. apply elem_of_cons in Hp as [-> | Hp].
      * exists x1. split; [|assumption]. eapply Hkeep2; eassumption.
      * apply Hdone2, Hp.
Qed.

(** C4 (amended). [Complete] and [Fail] are unconditional: each sets its
    own terminal status and overwrites [ProcessedAt] with the time of the
    call, whatever the status was.  What holds of every sequence of them
    is that a terminal transaction stays terminal (it never re-enters
    Pending).  [ProcessPendingTransactions] returns normally, leaves every
    transaction that was already terminal exactly as it was, and leaves no
    stored transaction Pending. *)
Theorem C4_terminal_stays_terminal (w : World) (iter : list string)
    (now : Time) (ops : list TxOp) (op : TxOp) (x : Transaction.t) :
  transactions_valid w ->
  range_order (transactions w) iter ->
  (Transaction.Status (apply_op now op x) =
     match op with
     | OpComplete => Transaction.TransactionStatusCompleted
     | OpFail => Transaction.TransactionStatusFailed
     end /\
   Transaction.ProcessedAt (apply_op now op x) = Some now) /\
  (is_terminal (Transaction.Status x) = true ->
     is_terminal (Transaction.Status (apply_ops now ops x)) = true) /\
  exists w',
    run (ProcessPendingTransactions iter) w = Some (Ok tt, w') /\
    (forall q y, transaction_objs w !! q = Some y ->
       is_terminal (Transaction.Status y) = true -> transaction_objs w' !! q = Some y) /\
    (forall k q, transactions w !! k = Some q ->
       exists y', transaction_objs w' !! q = Some y' /\
                  is_terminal (Transaction.Status y') = true).
Proof.
  intros Hv Hperm. split; [apply apply_op_status|].
  split; [apply apply_ops_terminal|].
  destruct (select_objs_spec (transaction_objs w) Transaction.IsPending
              (range_values (transactions w) iter)) as (r & Hr & _ & Hspec).
  { intros p Hp. eapply transactions_valid_range; eassumption. }
  destruct (process_all_spec r w) as (w' & Hrun & Hkeep & Hdone).
  { intros p Hp. apply Hspec in Hp as (Hp & _).
    eapply transactions_valid_range; eassumption. }
  exists w'. split; [|split].
  - unfold ProcessPendingTransactions, bindR,
      TransactionRepositoryImpl.GetPendingTransactions.
    cbn [bind atomic run]. rewrite Hr. rewrite run_bind, Hrun. reflexivity.
  - exact Hkeep.
  - intros k q Hk. destruct (Hv k q Hk) as [y Hy].
    destruct (is_terminal (Transaction.Status y)) eqn:Hterm.
    + exists y. split; [eapply Hkeep; eassumption | assumption].
    + apply Hdone, Hspec. split.
      * apply range_values_elem; [assumption | eauto].
      * exists y. split; [assumption|]. rewrite IsPending_terminal, Hterm. reflexivity.
Qed.

Lemma transactions_valid_world_tx : transactions_valid world_tx.
Proof.
  apply map_Forall_insert_2; [eexists; reflexivity|].
  apply map_Forall_singleton. eexists; reflexivity.
Defined.

Lemma range_order_world_tx : range_order (transactions world_tx) ["t1"; "t2"].
Proof. unfold range_order. vm_compute. reflexivity. Defined.

(** C4 at a store with one pending and one completed transaction, and the
    completed one failed then completed again. *)
Lemma C4_terminal_stays_terminal_witness :
  is_terminal (Transaction.Status (apply_ops 5 [OpFail; OpComplete] completed_tx)) = true /\
  exists w',
    run (ProcessPendingTransactions ["t1"; "t2"]) world_tx = Some (Ok tt, w') /\
    transaction_objs w' !! 1 = Some completed_tx /\
    exists y', transaction_objs w' !! 0 = Some y' /\
               is_terminal (Transaction.Status y') = true.
Proof.
  destruct (C4_terminal_stays_terminal world_tx ["t1"; "t2"] 5 [OpFail; OpComplete]
              OpComplete completed_tx transactions_valid_world_tx range_order_world_tx)
    as (_ & Hterm & w' & Hrun & Hkeep & Hdone).
  split; [apply Hterm; reflexivity|].
  exists w'. split; [exact Hrun|]. split.
  - apply (Hkeep 1 completed_tx); reflexivity.
  - apply (Hdone "t1" 0). reflexivity.
Defined.

(** C4 as stated fails: a transaction completed at time 1 and failed at
    time 2 leaves Completed for Failed, and its [ProcessedAt] is set a
    second time. *)
Lemma C4_complete_then_fail_changes_status :
  let x0 := Transaction.NewTransaction_at 0 "tx_1" "acc_A"
              Transaction.TransactionTypeDeposit (of_Z 1) in
  let x1 := Transaction.Complete_at 1 x0 in
  let x2 := Transaction.Fail_at 2 x1 in
  fst <$> run complete_then_fail (empty_world 0) = Some (Some x1, Some x2) /\
  Transaction.Status x1 = Transaction.TransactionStatusCompleted /\
  Transaction.Status x2 = Transaction.TransactionStatusFailed /\
  Transaction.ProcessedAt x1 = Some 1 /\
  Transaction.ProcessedAt x2 = Some 2.
Proof. repeat split. Qed.

(** ** C5: the transactions of an account *)

(** C5 (amended). For every account id, every store whose pointers are
    valid and every order in which [range] visits the store,
    [FindByAccountID] succeeds, leaves the store as it is, and returns
    exactly the stored transactions whose [AccountID] field equals the id
    (the source and target ids of a transfer are not looked at), in the
    order of the visit. *)
Theorem C5_find_by_account_id_field (w : World) (iter : list string) (accountID : string) :
  transactions_valid w ->
  range_order (transactions w) iter ->
  exists r : list ptr,
    run (TransactionRepositoryImpl.FindByAccountID iter accountID) w = Some (Ok r, w) /\
    sublist r (range_values (transactions w) iter) /\
    forall p, p ∈ r <->
      exists k x, transactions w !! k = Some p /\ transaction_objs w !! p = Some x /\
                  Transaction.AccountID x = accountID.
Proof.
  intros Hv Hperm.
  destruct (select_objs_spec (transaction_objs w)
              (fun x => String.eqb (Transaction.AccountID x) accountID)
              (range_values (transactions w) iter)) as (r & Hr & Hsub & Hspec).
  { intros p Hp. eapply transactions_valid_range; eassumption. }
  exists r. split; [|split; [exact Hsub|]].
  - cbn. rewrite Hr. reflexivity.
  - intros p. rewrite Hspec, (range_values_elem _ _ _ Hperm). split.
    + intros ((k & Hk) & x & Hx & Hf). apply String.eqb_eq in Hf. eauto.
    + intros (k & x & Hk & Hx & Hf). apply String.eqb_eq in Hf. eauto.
Qed.

(** C5 at the same store, for acc_A. *)
Lemma C5_find_by_account_id_field_witness :
  exists r : list ptr,
    run (TransactionRepositoryImpl.FindByAccountID ["t1"; "t2"] "acc_A") world_tx
      = Some (Ok r, world_tx) /\
    sublist r (range_values (transactions world_tx) ["t1"; "t2"]) /\
    forall p, p ∈ r <->
      exists k x, transactions world_tx !! k = Some p /\
                  transaction_objs world_tx !! p = Some x /\
                  Transaction.AccountID x = "acc_A".
Proof.
  apply (C5_find_by_account_id_field world_tx ["t1"; "t2"] "acc_A"
           transactions_valid_world_tx range_order_world_tx).
Defined.

(** C5 as stated fails twice.  After a transfer from acc_A to acc_B the
    stored transaction names acc_B as its target, and nothing is found for
    acc_B.  And for two transactions of acc_A, t1 created before t2, a
    visit of the store that meets t2 first returns t2 before t1. *)
Lemma C5_target_missed_and_unordered :
  (exists w,
     run transactions_of_target (empty_world 0) = Some ((Ok 0, Ok "acc_B", Ok []), w) /\
     range_order (transactions w) [generateTransactionID]) /\
  (exists w x1 x2,
     run two_transactions (empty_world 0) = Some ((0, 1), w) /\
     range_order (transactions w) ["t2"; "t1"] /\
     run (TransactionRepositoryImpl.FindByAccountID ["t2"; "t1"] "acc_A") w
       = Some (Ok [1; 0], w) /\
     transaction_objs w !! 0 = Some x1 /\ transaction_objs w !! 1 = Some x2 /\
     Transaction.CreatedAt x1 < Transaction.CreatedAt x2).
Proof.
  split.
  - eexists. split; [vm_compute; reflexivity|].
    unfold range_order. vm_compute. reflexivity.
  - do 3 eexists. split; [vm_compute; reflexivity|].
    split; [unfold range_order; vm_compute; apply perm_swap|].
    split; [vm_compute; reflexivity|].
    split; [reflexivity|]. split; [reflexivity|]. vm_compute. lia.
Qed.

(** ** C6: generated identifiers *)

(** C6 fails on the code: two accounts created one after the other get
    the same id, and so do the transactions of two deposits; the objects
    are distinct. *)
Theorem C6_generated_ids_collide :
  exists w,
    run two_accounts_two_deposits (empty_world 0) = Some ((Ok 0, Ok 1, Ok 0, Ok 1), w) /\
    Account.ID <$> account_objs w !! 0 = Some "acc_12345" /\
    Account.ID <$> account_objs w !! 1 = Some "acc_12345" /\
    Transaction.ID <$> transaction_objs w !! 0 = Some "tx_12345" /\
    Transaction.ID <$> transaction_objs w !! 1 = Some "tx_12345".
Proof. eexists. split; [vm_compute; reflexivity|]. repeat split. Qed.

(** ** C7: Money arithmetic *)

(** C7. [Add] and [Subtract] on two Money values: when the currencies
    differ both fail with the currency-mismatch error; when they are
    equal both succeed with the float64 sum (respectively difference) of
    the amounts and the common currency.  The operands are values, so
    neither is modified. *)
Theorem C7_money_add_subtract (m other : Money) :
  (Currency_ m <> Currency_ other ->
     Add m other = Err "currency mismatch" /\
     Subtract m other = Err "currency mismatch") /\
  (Currency_ m = Currency_ other ->
     Add m other = Ok (mkMoney (add (Amount m) (Amount other)) (Currency_ m)) /\
     Subtract m other = Ok (mkMoney (sub (Amount m) (Amount other)) (Currency_ m))).
Proof.
  unfold Add, Subtract. split; intros H.
  - apply String.eqb_neq in H. rewrite H. simpl. split; reflexivity.
  - apply String.eqb_eq in H. rewrite H. simpl. split; reflexivity.
Qed.

(** C7 at 1 USD and 2 USD, and at 1 USD and 2 EUR. *)
Lemma C7_money_add_subtract_witness :
  (Add (usd (of_Z 1)) (usd (of_Z 2)) = Ok (usd (add (of_Z 1) (of_Z 2))) /\
   Subtract (usd (of_Z 1)) (usd (of_Z 2)) = Ok (usd (sub (of_Z 1) (of_Z 2)))) /\
  (Add (usd (of_Z 1)) (NewMoney (of_Z 2) CurrencyEUR) = Err "currency mismatch" /\
   Subtract (usd (of_Z 1)) (NewMoney (of_Z 2) CurrencyEUR) = Err "currency mismatch").
Proof.
  split.
  - apply (proj2 (C7_money_add_subtract (usd (of_Z 1)) (usd (of_Z 2)))). reflexivity.
  - apply (proj1 (C7_money_add_subtract (usd (of_Z 1)) (NewMoney (of_Z 2) CurrencyEUR))).
    discriminate.
Defined.

(** ** C8: activating a closed account *)

(** C8 (amended). [Activate] never fails and never leaves the account as
    it was: whatever the status of the account, Closed included, it sets
    the status to Active and stamps [UpdatedAt] with the time of the call,
    keeping the other fields. *)
Theorem C8_activate_is_unconditional (w : World) (p : ptr) (a : Account.t) :
  account_objs w !! p = Some a ->
  exists w',
    run (Account_Activate p) w = Some (tt, w') /\
    account_objs w' !! p = Some (Account.Activate_at (clock w) a) /\
    Account.Status (Account.Activate_at (clock w) a) = Account.AccountStatusActive /\
    Account.UpdatedAt (Account.Activate_at (clock w) a) = clock w.
Proof.
  intros Hp. unfold Account_Activate. exec.
  eexists. split; [reflexivity|]. exec. repeat split.
Qed.

(** C8 at a closed account. *)
Lemma C8_activate_is_unconditional_witness :
  exists w',
    run (Account_Activate 0) (mkWorld 7 [closed_account] [] ∅ ∅) = Some (tt, w') /\
    account_objs w' !! 0 = Some (Account.Activate_at 7 closed_account) /\
    Account.Status (Account.Activate_at 7 closed_account) = Account.AccountStatusActive /\
    Account.UpdatedAt (Account.Activate_at 7 closed_account) = 7.
Proof.
  apply (C8_activate_is_unconditional (mkWorld 7 [closed_account] [] ∅ ∅) 0 closed_account).
  reflexivity.
Defined.

(** C8 as stated fails: [Activate] on a closed account makes it active. *)
Lemma C8_closed_account_reactivated :
  let w := mkWorld 1 [closed_account] [] ∅ ∅ in
  Account.Status closed_account = Account.AccountStatusClosed /\
  exists w',
    run (Account_Activate 0) w = Some (tt, w') /\
    Account.Status <$> account_objs w' !! 0 = Some Account.AccountStatusActive.
Proof. split; [reflexivity|]. eexists. split; reflexivity. Qed.

(** ** C9: atomicity of a transfer *)

(** C9 fails on the code: acc_A holds 100, acc_B holds 0 and 40 is
    transferred while a reader asks for both balances.  After the tenth
    step of the transfer the store holds no transaction yet; under the
    schedule that runs the reader at that point, the reader finds 60 and
    0: the debit without the credit.  The transfer then completes
    normally and a later reader finds 60 and 40. *)
Theorem C9_partial_transfer_observable :
  exists w0 tx w,
    run hundred_and_zero (empty_world 0) = Some (Ok tt, w0) /\
    fst <$> run (read_balances "acc_A" "acc_B") w0
      = Some (Ok (usd (of_Z 100)), Ok (usd (of_Z 0))) /\
    (fun r => transactions (snd r)) <$>
      interleave (replicate 10 true)
        (CreateTransfer "acc_A" "acc_B" (usd (of_Z 40)))
        (read_balances "acc_A" "acc_B") w0
      = Some ∅ /\
    interleave (replicate 10 true ++ replicate 2 false ++ replicate 6 true)
      (CreateTransfer "acc_A" "acc_B" (usd (of_Z 40)))
      (read_balances "acc_A" "acc_B") w0
      = Some (Ret (Ok tx), Ret (Ok (usd (of_Z 60)), Ok (usd (of_Z 0))), w) /\
    fst <$> run (read_balances "acc_A" "acc_B") w
      = Some (Ok (usd (of_Z 60)), Ok (usd (of_Z 40))).
Proof.
  do 3 eexists. split; [vm_compute; reflexivity|].
  split; [vm_compute; reflexivity|].
  split; [vm_compute; reflexivity|].
  split; vm_compute; reflexivity.
Qed.

(** ** C10: withdrawing the whole balance *)

(** C10 (amended). A withdrawal of exactly the balance [b], for a finite
    [b > 0], is not rejected: it succeeds and a reader of the store then
    finds the balance zero. *)
Theorem C10_withdraw_whole_balance (w : World) (accountID : string)
    (currency : Currency) (p : ptr) (a : Account.t) :
  stored_account w accountID p a ->
  ltb zero (Account.Balance a) = true ->
  is_finite (Account.Balance a) = true ->
  exists (tx : ptr) (w' : World),
    run (CreateWithdrawal accountID (NewMoney (Account.Balance a) currency)) w
      = Some (Ok tx, w') /\
    run (AccountRepositoryImpl.GetBalance accountID) w' = Some (Ok zero, w').
Proof.
  intros (Hk & Hp & Hid & Hne) Hpos Hfin.
  apply String.eqb_neq in Hne.
  destruct (positive_finite _ Hpos Hfin) as (m & e & Hb).
  pose proof (ltb_irrefl (Account.Balance a)) as Hirr.
  unfold CreateWithdrawal, IsPositive, NewMoney.
  exec. rewrite Hid. exec.
  do 2 eexists. split; [reflexivity|]. exec.
  rewrite Hb, sub_diag_finite. reflexivity.
Qed.

(** C10 at acc_A = 100 and a withdrawal of 100. *)
Lemma C10_withdraw_whole_balance_witness :
  exists (tx : ptr) (w' : World),
    run (CreateWithdrawal "acc_A" (NewMoney (of_Z 100) CurrencyUSD))
        (world_A (of_Z 100)) = Some (Ok tx, w') /\
    run (AccountRepositoryImpl.GetBalance "acc_A") w' = Some (Ok zero, w').
Proof.
  apply (C10_withdraw_whole_balance (world_A (of_Z 100)) "acc_A" CurrencyUSD 0
           (account_A (of_Z 100))).
  - stored.
  - vm_compute. reflexivity.
  - vm_compute. reflexivity.
Defined.

(** C10 as stated fails: the balance is +Inf (two deposits of 1e308) and
    +Inf is withdrawn.  The withdrawal succeeds and leaves NaN. *)
Lemma C10_infinite_balance_leaves_nan :
  fst <$> run withdraw_infinite_balance (empty_world 0)
    = Some (Ok pInf, Ok 2, Ok NaN) /\
  ltb zero pInf = true /\
  NaN <> zero.
Proof.
  split; [vm_compute; reflexivity|].
  split; [vm_compute; reflexivity | discriminate].
Qed.

(** * Further properties *)

(** ** The store invariant *)

Lemma steps_preserve_bind {A B : Type} (P : World -> Prop) (p : Prog A) (f : A -> Prog B) :
  steps_preserve P p -> (forall a, steps_preserve P (f a)) -> steps_preserve P (bind p f).
Proof.
  induction p as [a | X act k IH]; simpl; intros Hp Hf; [apply Hf|].
  destruct Hp as [Hact Hk]. split; [exact Hact|].
  intros x. apply IH; [apply Hk | exact Hf].
Qed.

Lemma steps_preserve_step {A : Type} (P : World -> Prop) (p p' : Prog A) (w w' : World) :
  steps_preserve P p -> P w -> step p w = Some (p', w') -> steps_preserve P p' /\ P w'.
Proof.
  destruct p as [a | X act k]; simpl; intros Hp Hw Hstep.
  - injection Hstep as <- <-. split; [exact I | exact Hw].
  - destruct Hp as [Hact Hk]. destruct (act w) as [[x w1]|] eqn:E; [|discriminate].
    injection Hstep as <- <-. split; [apply Hk | eapply Hact; eassumption].
Qed.

Lemma steps_preserve_run {A : Type} (P : World -> Prop) (p : Prog A) (w w' : World) (a : A) :
  steps_preserve P p -> P w -> run p w = Some (a, w') -> P w'.
Proof.
  revert w. induction p as [a0 | X act k IH]; simpl; intros w Hp Hw Hrun.
  - injection Hrun as _ <-. exact Hw.
  - destruct Hp as [Hact Hk]. destruct (act w) as [[x w1]|] eqn:E; [|discriminate].
    eapply IH; [apply Hk | eapply Hact; eassumption | exact Hrun].
Qed.

Lemma steps_preserve_interleave {A B : Type} (P : World -> Prop) (sched : list bool)
    (p p' : Prog A) (q q' : Prog B) (w w' : World) :
  steps_preserve P p -> steps_preserve P q -> P w ->
  interleave sched p q w = Some (p', q', w') -> P w'.
Proof.
  revert p q w. induction sched as [|b sched IH]; simpl; intros p q w Hp Hq Hw Hrun.
  - injection Hrun as _ _ <-. exact Hw.
  - destruct b.
    + destruct (step p w) as [[p1 w1]|] eqn:E; [|discriminate].
      destruct (steps_preserve_step P p p1 w w1 Hp Hw E) as [Hp1 Hw1].
      eapply IH; eassumption.
    + destruct (step q w) as [[q1 w1]|] eqn:E; [|discriminate].
      destruct (steps_preserve_step P q q1 w w1 Hq Hw E) as [Hq1 Hw1].
      eapply IH; eassumption.
Qed.

(** The invariant only reads the heaps and the maps. *)
Lemma store_wf_tick (w : World) : store_wf w -> store_wf (tick w).
Proof. intros H. exact H. Qed.

Lemma store_wf_update_account (w : World) (p : ptr) (a a' : Account.t) :
  account_objs w !! p = Some a -> Account.ID a' = Account.ID a ->
  store_wf w -> store_wf (set_account_objs (<[p := a']> (account_objs w)) w).
Proof.
  intros Hp Hid [Ha Ht]. split; [|exact Ht].
  intros id q Hq. destruct (Ha id q Hq) as (a0 & _ & Hq0 & Hid0 & Hne).
  destruct (decide (p = q)) as [<- | Hpq].
  - exists a'. split; [exact Hq|]. split.
    + cbn. apply list_lookup_insert_eq. eapply lookup_lt_Some, Hp.
    + split; [|exact Hne]. rewrite Hp in Hq0. injection Hq0 as <-. congruence.
  - exists a0. split; [exact Hq|]. split; [|split; assumption].
    cbn. rewrite list_lookup_insert_ne by exact Hpq. exact Hq0.
Qed.

Lemma store_wf_update_transaction (w : World) (p : ptr) (x x' : Transaction.t) :
  transaction_objs w !! p = Some x -> Transaction.ID x' = Transaction.ID x ->
  store_wf w -> store_wf (set_transaction_objs (<[p := x']> (transaction_objs w)) w).
Proof.
  intros Hp Hid [Ha Ht]. split; [exact Ha|].
  intros id q Hq. destruct (Ht id q Hq) as (x0 & _ & Hq0 & Hid0 & Hne).
  destruct (decide (p = q)) as [<- | Hpq].
  - exists x'. split; [exact Hq|]. split.
    + cbn. apply list_lookup_insert_eq. eapply lookup_lt_Some, Hp.
    + split; [|exact Hne]. rewrite Hp in Hq0. injection Hq0 as <-. congruence.
  - exists x0. split; [exact Hq|]. split; [|split; assumption].
    cbn. rewrite list_lookup_insert_ne by exact Hpq. exact Hq0.
Qed.

Lemma store_wf_new_account (w : World) (a : Account.t) :
  store_wf w -> store_wf (set_account_objs (account_objs w ++ [a]) w).
Proof.
  intros [Ha Ht]. split; [|exact Ht].
  intros id q Hq. destruct (Ha id q Hq) as (a0 & _ & Hq0 & Hid0 & Hne).
  exists a0. split; [exact Hq|]. split; [|split; assumption].
  cbn. rewrite lookup_app_l by (eapply lookup_lt_Some, Hq0). exact Hq0.
Qed.

Lemma store_wf_new_transaction (w : World) (x : Transaction.t) :
  store_wf w -> store_wf (set_transaction_objs (transaction_objs w ++ [x]) w).
Proof.
  intros [Ha Ht]. split; [exact Ha|].
  intros id q Hq. destruct (Ht id q Hq) as (x0 & _ & Hq0 & Hid0 & Hne).
  exists x0. split; [exact Hq|]. split; [|split; assumption].
  cbn. rewrite lookup_app_l by (eapply lookup_lt_Some, Hq0). exact Hq0.
Qed.

Lemma store_wf_save_account (w : World) (p : ptr) (a : Account.t) :
  account_objs w !! p = Some a -> Account.ID a <> EmptyString ->
  store_wf w -> store_wf (set_accounts (<[Account.ID a := p]> (accounts w)) w).
Proof.
  intros Hp Hne [Ha Ht]. split; [|exact Ht].
  intros id q Hq. cbn in Hq.
  destruct (decide (Account.ID a = id)) as [<- | Hid].
  - rewrite lookup_insert_eq in Hq. injection Hq as <-.
    exists a. split; [cbn; apply lookup_insert_eq|]. split; [exact Hp|].
    split; [reflexivity | exact Hne].
  - rewrite lookup_insert_ne in Hq by exact Hid.
    destruct (Ha id q Hq) as (a0 & _ & Hq0 & Hid0 & Hne0).
    exists a0. split; [cbn; rewrite lookup_insert_ne by exact Hid; exact Hq|].
    split; [exact Hq0 | split; assumption].
Qed.

Lemma store_wf_save_transaction (w : World) (p : ptr) (x : Transaction.t) :
  transaction_objs w !! p = Some x -> Transaction.ID x <> EmptyString ->
  store_wf w -> store_wf (set_transactions (<[Transaction.ID x := p]> (transactions w)) w).
Proof.
  intros Hp Hne [Ha Ht]. split; [exact Ha|].
  intros id q Hq. cbn in Hq.
  destruct (decide (Transaction.ID x = id)) as [<- | Hid].
  - rewrite lookup_insert_eq in Hq. injection Hq as <-.
    exists x. split; [cbn; apply lookup_insert_eq|]. split; [exact Hp|].
    split; [reflexivity | exact Hne].
  - rewrite lookup_insert_ne in Hq by exact Hid.
    destruct (Ht id q Hq) as (x0 & _ & Hq0 & Hid0 & Hne0).
    exists x0. split; [cbn; rewrite lookup_insert_ne by exact Hid; exact Hq|].
    split; [exact Hq0 | split; assumption].
Qed.

Lemma store_wf_delete_account (w : World) (id : string) :
  store_wf w -> store_wf (set_accounts (delete id (accounts w)) w).
Proof.
  intros [Ha Ht]. split; [|exact Ht].
  intros id' q Hq. cbn in Hq. apply lookup_delete_Some in Hq as [Hne Hq].
  destruct (Ha id' q Hq) as (a0 & _ & Hq0 & Hid0 & Hne0).
  exists a0. split; [cbn; rewrite lookup_delete_ne by exact Hne; exact Hq|].
  split; [exact Hq0 | split; assumption].
Qed.

(** Every primitive keeps the invariant, whatever its arguments. *)
Ltac inv_cases H :=
  repeat match type of H with
  | context [match ?e with _ => _ end] => destruct e eqn:?
  end; simplify_eq.

Ltac inv_close :=
  repeat match goal with
  | |- store_wf (tick _) => apply store_wf_tick
  | |- store_wf (set_account_objs (<[_ := _]> _) _) =>
      eapply store_wf_update_account; [eassumption | reflexivity |]
  | |- store_wf (set_transaction_objs (<[_ := _]> _) _) =>
      eapply store_wf_update_transaction; [eassumption | reflexivity |]
  | |- store_wf (set_account_objs (_ ++ _) _) => apply store_wf_new_account
  | |- store_wf (set_transaction_objs (_ ++ _) _) => apply store_wf_new_transaction
  | |- store_wf (set_accounts (delete _ _) _) => apply store_wf_delete_account
  | |- store_wf (set_accounts (<[_ := _]> _) _) =>
      eapply store_wf_save_account; [eassumption | apply String.eqb_neq; eassumption |]
  | |- store_wf (set_transactions (<[_ := _]> _) _) =>
      eapply store_wf_save_transaction;
        [eassumption | apply String.eqb_neq; eassumption |]
  end; try assumption.

Ltac inv_prim :=
  cbn; split; [intros w x w' Hw Hact; inv_cases Hact; inv_close | intros; exact I].


(** A program built from the primitives keeps the invariant. *)
Ltac inv_prog :=
  repeat match goal with
  | |- steps_preserve _ (Ret _) => exact I
  | |- steps_preserve _ (bindR _ _) => unfold bindR
  | |- steps_preserve _ (bind _ _) => apply steps_preserve_bind; [|intros]
  | |- steps_preserve _ (if ?b then _ else _) => destruct b
  | |- steps_preserve _ (match ?r with Ok _ => _ | Err _ => _ end) => destruct r
  | |- steps_preserve _ (match ?r with Ok _ => _ | Err _ => _ end _) => destruct r
  | |- steps_preserve store_wf _ => solve [inv_prim]
  end.

Lemma steps_preserve_process_one (tx : ptr) :
  steps_preserve store_wf (services.process_one tx).
Proof. unfold services.process_one. inv_prog. Qed.

Lemma steps_preserve_process_all (pendingTxs : list ptr) :
  steps_preserve store_wf (services.process_all pendingTxs).
Proof.
  induction pendingTxs as [|tx rest IH]; [exact I|].
  change (services.process_all (tx :: rest))
    with (bind (services.process_one tx) (fun _ => services.process_all rest)).
  apply steps_preserve_bind; [apply steps_preserve_process_one | intros _; exact IH].
Qed.

Lemma steps_preserve_perform (c : Call) : steps_preserve store_wf (perform c).
Proof.
  destruct c; unfold perform;
    (apply steps_preserve_bind; [|intros; exact I]).
  - unfold services.CreateAccount. inv_prog.
  - unfold services.UpdateAccountBalance. inv_prog.
  - unfold services.SuspendAccount. inv_prog.
  - unfold services.GetAccountBalance. inv_prog.
  - unfold services.GetAccountTransactions. inv_prog.
  - unfold services.CreateDeposit. inv_prog.
  - unfold services.CreateWithdrawal. inv_prog.
  - unfold services.CreateTransfer. inv_prog.
  - unfold services.ProcessPendingTransactions. inv_prog.
    apply steps_preserve_process_all.
Qed.

Lemma steps_preserve_perform_all (cs : list Call) :
  steps_preserve store_wf (perform_all cs).
Proof.
  induction cs as [|c cs IH]; [exact I|].
  change (perform_all (c :: cs)) with (bind (perform c) (fun _ => perform_all cs)).
  apply steps_preserve_bind; [apply steps_preserve_perform | intros _; exact IH].
Qed.

Lemma store_wf_empty (t0 : Time) : store_wf (empty_world t0).
Proof. split; intros id p H; cbn in H; rewrite lookup_empty in H; discriminate. Qed.

(** X1. Every store that the service calls of a client produce from the
    empty store keeps each account and each transaction under its own,
    non-empty ID. *)
Theorem reachable_store_wf (cs : list Call) (t0 : Time) (w : World) :
  run (perform_all cs) (empty_world t0) = Some (tt, w) -> store_wf w.
Proof.
  intros Hrun.
  exact (steps_preserve_run store_wf _ _ _ _ (steps_preserve_perform_all cs)
           (store_wf_empty t0) Hrun).
Qed.

(** X2. The invariant also holds at every point of every interleaving of
    the atomic steps of two service calls. *)
Theorem interleaved_store_wf (sched : list bool) (c1 c2 : Call) (w w' : World)
    (p' q' : Prog unit) :
  store_wf w ->
  interleave sched (perform c1) (perform c2) w = Some (p', q', w') ->
  store_wf w'.
Proof.
  intros Hw Hrun.
  exact (steps_preserve_interleave store_wf sched _ _ _ _ _ _
           (steps_preserve_perform c1) (steps_preserve_perform c2) Hw Hrun).
Qed.

(** ** The account repository *)

(** X3. [Save] refuses an account whose ID is empty and leaves the store
    as it is; otherwise it stores the account under its ID, where
    [FindByID] and [GetBalance] then find it, and touches neither the
    objects nor the entries under other keys. *)
Theorem account_Save_then_FindByID (w : World) (p : ptr) (a : Account.t) :
  account_objs w !! p = Some a ->
  (Account.ID a = EmptyString ->
     run (AccountRepositoryImpl.Save p) w = Some (Err "account ID is required", w)) /\
  (Account.ID a <> EmptyString ->
     exists w',
       run (AccountRepositoryImpl.Save p) w = Some (Ok tt, w') /\
       run (AccountRepositoryImpl.FindByID (Account.ID a)) w' = Some (Ok p, w') /\
       run (AccountRepositoryImpl.GetBalance (Account.ID a)) w'
         = Some (Ok (Account.Balance a), w') /\
       account_objs w' = account_objs w /\
       forall id, id <> Account.ID a -> accounts w' !! id = accounts w !! id).
Proof.
  intros Hp. split; intros Hid.
  - unfold AccountRepositoryImpl.Save. exec. rewrite Hid. reflexivity.
  - pose proof (proj2 (String.eqb_neq _ _) Hid) as Hneb.
    unfold AccountRepositoryImpl.Save. exec.
    eexists. split; [reflexivity|].
    split; [exec; reflexivity|]. split; [exec; reflexivity|].
    split; [reflexivity|].
    intros id Hne. cbn. apply lookup_insert_ne. congruence.
Qed.

(** X4. [Delete] of a key that is not in the store fails and changes
    nothing; [Delete] of a stored key removes that entry only: the account
    is no longer found, the other entries and all objects stay. *)
Theorem account_Delete_removes_entry (w : World) (id : string) :
  (accounts w !! id = None ->
     run (AccountRepositoryImpl.Delete id) w = Some (Err "account not found", w)) /\
  (forall p, accounts w !! id = Some p ->
     exists w',
       run (AccountRepositoryImpl.Delete id) w = Some (Ok tt, w') /\
       run (AccountRepositoryImpl.FindByID id) w' = Some (Err "account not found", w') /\
       run (AccountRepositoryImpl.GetBalance id) w' = Some (Err "account not found", w') /\
       account_objs w' = account_objs w /\
       forall id', id' <> id -> accounts w' !! id' = accounts w !! id').
Proof.
  split.
  - intros Hnone. unfold AccountRepositoryImpl.Delete. cbn. rewrite Hnone. reflexivity.
  - intros p Hp. unfold AccountRepositoryImpl.Delete. exec.
    eexists. split; [reflexivity|].
    split; [cbn; rewrite lookup_delete_eq; reflexivity|].
    split; [cbn; rewrite lookup_delete_eq; reflexivity|].
    split; [reflexivity|].
    intros id' Hne. cbn. apply lookup_delete_ne. congruence.
Qed.

Lemma first_obj_spec {T : Type} (h : list T) (f : T -> bool) (ps : list ptr) :
  (forall p, p ∈ ps -> is_Some (h !! p)) ->
  (exists p x, first_obj h f ps = Some (Some p) /\ p ∈ ps /\ h !! p = Some x /\ f x = true) \/
  (first_obj h f ps = Some None /\
   forall p x, p ∈ ps -> h !! p = Some x -> f x = false).
Proof.
  induction ps as [|p ps IH]; intros Hvalid.
  - right. split; [reflexivity|]. intros p x Hp. inversion Hp.
  - destruct (Hvalid p) as [x Hx]; [left|].
    simpl. rewrite Hx. destruct (f x) eqn:Hf.
    + left. exists p, x. repeat split; [left | assumption | assumption].
    + destruct IH as [(q & y & Hq & Hin & Hy & Hfy) | (Hnone & Hall)].
      { intros q Hq. apply Hvalid. right. assumption. }
      * left. exists q, y. repeat split; [assumption | right; assumption | assumption..].
      * right. split; [assumption|].
        intros q y Hin Hy. apply elem_of_cons in Hin as [-> | Hin].
        -- congruence.
        -- eapply Hall; eassumption.
Qed.

Lemma accounts_wf_range (w : World) (iter : list string) (p : ptr) :
  accounts_wf w -> p ∈ range_values (accounts w) iter -> is_Some (account_objs w !! p).
Proof.
  intros Hwf Hp. apply range_values_stored in Hp as (k & Hk).
  destruct (Hwf k p Hk) as (a & _ & Ha & _). eauto.
Qed.

(** X5. On a well-formed store and for every order of the visit,
    [FindByEmail] changes nothing and either returns a stored account
    whose email is the one asked for, or fails, and then no stored account
    has that email. *)
Theorem account_FindByEmail_finds (w : World) (iter : list string) (email : string) :
  accounts_wf w ->
  range_order (accounts w) iter ->
  (exists p k a,
     run (AccountRepositoryImpl.FindByEmail iter email) w = Some (Ok p, w) /\
     accounts w !! k = Some p /\ account_objs w !! p = Some a /\
     Account.Email a = email) \/
  (run (AccountRepositoryImpl.FindByEmail iter email) w
     = Some (Err "account not found", w) /\
   forall k p a, accounts w !! k = Some p -> account_objs w !! p = Some a ->
                 Account.Email a <> email).
Proof.
  intros Hwf Hperm.
  destruct (first_obj_spec (account_objs w)
              (fun a => String.eqb (Account.Email a) email)
              (range_values (accounts w) iter))
    as [(p & a & Hfirst & Hin & Ha & Hf) | (Hfirst & Hall)].
  { intros p Hp. eapply accounts_wf_range; eassumption. }
  - left. apply range_values_stored in Hin as (k & Hk).
    exists p, k, a. split; [cbn; rewrite Hfirst; reflexivity|].
    split; [assumption|]. split; [assumption|]. apply String.eqb_eq. assumption.
  - right. split; [cbn; rewrite Hfirst; reflexivity|].
    intros k p a Hk Ha. apply String.eqb_neq. eapply Hall; [|eassumption].
    apply range_values_elem; [assumption | eauto].
Qed.

(** X6. On a well-formed store and for every order of the visit,
    [FindByOwnerID] changes nothing and returns exactly the stored
    accounts whose owner is the one asked for, in the order of the visit. *)
Theorem account_FindByOwnerID_exact (w : World) (iter : list string) (ownerID : string) :
  accounts_wf w ->
  range_order (accounts w) iter ->
  exists r : list ptr,
    run (AccountRepositoryImpl.FindByOwnerID iter ownerID) w = Some (Ok r, w) /\
    sublist r (range_values (accounts w) iter) /\
    forall p, p ∈ r <->
      exists k a, accounts w !! k = Some p /\ account_objs w !! p = Some a /\
                  Account.OwnerID a = ownerID.
Proof.
  intros Hwf Hperm.
  destruct (select_objs_spec (account_objs w)
              (fun a => String.eqb (Account.OwnerID a) ownerID)
              (range_values (accounts w) iter)) as (r & Hr & Hsub & Hspec).
  { intros p Hp. eapply accounts_wf_range; eassumption. }
  exists r. split; [|split; [exact Hsub|]].
  - cbn. rewrite Hr. reflexivity.
  - intros p. rewrite Hspec, (range_values_elem _ _ _ Hperm). split.
    + intros ((k & Hk) & a & Ha & Hf). apply String.eqb_eq in Hf. eauto.
    + intros (k & a & Hk & Ha & Hf). apply String.eqb_eq in Hf. eauto.
Qed.

(** ** The transaction repository *)

(** X7. [Save] refuses a transaction whose ID is empty and leaves the
    store as it is; otherwise it stores the transaction under its ID,
    replacing what was there, and [FindByID] then returns it; entries
    under other keys and all objects stay. *)
Theorem transaction_Save_then_FindByID (w : World) (p : ptr) (x : Transaction.t) :
  transaction_objs w !! p = Some x ->
  (Transaction.ID x = EmptyString ->
     run (TransactionRepositoryImpl.Save p) w
       = Some (Err "transaction ID is required", w)) /\
  (Transaction.ID x <> EmptyString ->
     exists w',
       run (TransactionRepositoryImpl.Save p) w = Some (Ok tt, w') /\
       run (TransactionRepositoryImpl.FindByID (Transaction.ID x)) w' = Some (Ok p, w') /\
       transaction_objs w' = transaction_objs w /\
       forall id, id <> Transaction.ID x -> transactions w' !! id = transactions w !! id).
Proof.
  intros Hp. split; intros Hid.
  - unfold TransactionRepositoryImpl.Save. exec. rewrite Hid. reflexivity.
  - pose proof (proj2 (String.eqb_neq _ _) Hid) as Hneb.
    unfold TransactionRepositoryImpl.Save. exec.
    eexists. split; [reflexivity|].
    split; [exec; reflexivity|]. split; [reflexivity|].
    intros id Hne. cbn. apply lookup_insert_ne. congruence.
Qed.

(** X8. For every store whose pointers are valid and every order of the
    visit, [GetPendingTransactions] changes nothing and returns exactly
    the stored transactions whose status is Pending. *)
Theorem transaction_GetPendingTransactions_exact (w : World) (iter : list string) :
  transactions_valid w ->
  range_order (transactions w) iter ->
  exists r : list ptr,
    run (TransactionRepositoryImpl.GetPendingTransactions iter) w = Some (Ok r, w) /\
    forall p, p ∈ r <->
      exists k x, transactions w !! k = Some p /\ transaction_objs w !! p = Some x /\
                  Transaction.Status x = Transaction.TransactionStatusPending.
Proof.
  intros Hv Hperm.
  destruct (select_objs_spec (transaction_objs w) Transaction.IsPending
              (range_values (transactions w) iter)) as (r & Hr & _ & Hspec).
  { intros p Hp. eapply transactions_valid_range; eassumption. }
  exists r. split.
  - cbn. rewrite Hr. reflexivity.
  - intros p. rewrite Hspec, (range_values_elem _ _ _ Hperm).
    assert (Hpend : forall x, Transaction.IsPending x = true <->
              Transaction.Status x = Transaction.TransactionStatusPending).
    { intros x. unfold Transaction.IsPending.
      destruct (Transaction.Status x); simpl; split; congruence. }
    split.
    + intros ((k & Hk) & x & Hx & Hf). apply Hpend in Hf. eauto.
    + intros (k & x & Hk & Hx & Hf). apply Hpend in Hf. eauto.
Qed.

(** ** The account service *)

(** X9. On a well-formed store, [CreateAccount] with an email that a
    stored account already has fails and changes nothing.  With an email
    that no stored account has it succeeds: it allocates a new active
    account with balance zero and the given owner, email and type, and
    stores it under the generated id, replacing what was stored there;
    the transactions are not touched. *)
Theorem CreateAccount_email_check (w : World) (iter : list string)
    (ownerID email : string) (accountType : Account.AccountType) :
  accounts_wf w ->
  range_order (accounts w) iter ->
  ((exists k p a, accounts w !! k = Some p /\ account_objs w !! p = Some a /\
                  Account.Email a = email) ->
     run (CreateAccount iter ownerID email accountType) w
       = Some (Err "account with email already exists", w)) /\
  ((forall k p a, accounts w !! k = Some p -> account_objs w !! p = Some a ->
                  Account.Email a <> email) ->
     exists w',
       run (CreateAccount iter ownerID email accountType) w
         = Some (Ok (length (account_objs w)), w') /\
       account_objs w' =
         (account_objs w ++
          [Account.mk generateAccountID ownerID email accountType
             Account.AccountStatusActive zero (clock w) (clock w)])%list /\
       accounts w' = <[generateAccountID := length (account_objs w)]> (accounts w) /\
       transactions w' = transactions w /\
       transaction_objs w' = transaction_objs w).
Proof.
  intros Hwf Hperm.
  destruct (account_FindByEmail_finds w iter email Hwf Hperm)
    as [(p & k & a & Hrun & Hk & Ha & He) | (Hrun & Hnone)].
  - split.
    + intros _. unfold CreateAccount. rewrite run_bind, Hrun. reflexivity.
    + intros Hall. exfalso. exact (Hall k p a Hk Ha He).
  - split.
    + intros (k & p & a & Hk & Ha & He). exfalso. exact (Hnone k p a Hk Ha He).
    + intros _. unfold CreateAccount. rewrite run_bind, Hrun. exec.
      eexists. split; [reflexivity|]. repeat split.
Qed.

(** X10. [UpdateAccountBalance] on a stored account overwrites the
    balance with any value at all, negative values and NaN included, and
    keeps the status; [GetAccountBalance] then reports that value, always
    labelled USD. *)
Theorem UpdateAccountBalance_then_GetAccountBalance (w : World) (id : string)
    (amount : float64) (p : ptr) (a : Account.t) :
  stored_account w id p a ->
  exists w',
    run (UpdateAccountBalance id amount) w = Some (Ok tt, w') /\
    run (GetAccountBalance id) w' = Some (Ok (NewMoney amount CurrencyUSD), w') /\
    stored_account w' id p (Account.UpdateBalance_at (clock w) amount a) /\
    Account.Status (Account.UpdateBalance_at (clock w) amount a) = Account.Status a.
Proof.
  intros (Hk & Hp & Hid & Hne).
  pose proof (proj2 (String.eqb_neq _ _) Hne) as Hneb.
  unfold UpdateAccountBalance. exec. rewrite Hid. exec.
  eexists. split; [reflexivity|].
  split; [unfold GetAccountBalance; exec; reflexivity|].
  split; [|reflexivity].
  split; [exec; reflexivity|]. split; [exec; reflexivity|].
  split; [exact Hid | exact Hne].
Qed.

(** X11. [SuspendAccount] on a stored account sets its status to
    Suspended and keeps its balance.  From then on a deposit into it is
    refused (as inactive when the amount is positive), its transactions
    cannot be listed, and the balance can still be read. *)
Theorem SuspendAccount_blocks_deposits (w : World) (id : string) (amount : Money)
    (iter : list string) (p : ptr) (a : Account.t) :
  stored_account w id p a ->
  exists w',
    run (SuspendAccount id) w = Some (Ok tt, w') /\
    stored_account w' id p (Account.Suspend_at (clock w) a) /\
    run (CreateDeposit id amount) w'
      = Some (Err (if IsPositive amount then "account is not active"
                   else "deposit amount must be positive"), w') /\
    run (GetAccountTransactions iter id) w' = Some (Err "account is not active", w') /\
    run (GetAccountBalance id) w'
      = Some (Ok (NewMoney (Account.Balance a) CurrencyUSD), w').
Proof.
  intros (Hk & Hp & Hid & Hne).
  pose proof (proj2 (String.eqb_neq _ _) Hne) as Hneb.
  unfold SuspendAccount. exec. rewrite Hid. exec.
  eexists. split; [reflexivity|].
  split.
  { split; [exec; reflexivity|]. split; [exec; reflexivity|].
    split; [exact Hid | exact Hne]. }
  split.
  { unfold CreateDeposit. destruct (IsPositive amount); [|reflexivity].
    exec. reflexivity. }
  split.
  { unfold GetAccountTransactions. exec. reflexivity. }
  unfold GetAccountBalance. exec. reflexivity.
Qed.

(** X12. With an id that is not in the store, every operation on one
    account fails with the not-found error and changes nothing (a deposit
    or a withdrawal of a positive amount: the amount is checked first). *)
Theorem missing_account_is_not_found (w : World) (id : string) (x : float64)
    (amount : Money) (iter : list string) :
  accounts w !! id = None ->
  IsPositive amount = true ->
  run (GetAccount id) w = Some (Err "account not found", w) /\
  run (GetAccountBalance id) w = Some (Err "account not found", w) /\
  run (UpdateAccountBalance id x) w = Some (Err "account not found", w) /\
  run (SuspendAccount id) w = Some (Err "account not found", w) /\
  run (GetAccountTransactions iter id) w = Some (Err "account not found", w) /\
  run (CreateDeposit id amount) w = Some (Err "account not found", w) /\
  run (CreateWithdrawal id amount) w = Some (Err "account not found", w).
Proof.
  intros Hnone Hpos.
  unfold GetAccount, GetAccountBalance, UpdateAccountBalance, SuspendAccount,
    GetAccountTransactions, CreateDeposit, CreateWithdrawal.
  rewrite Hpos. cbn. rewrite Hnone. cbn. repeat split.
Qed.

(** ** The transaction service *)

(** X13. [CreateDeposit] refuses an amount that is not positive (zero,
    negative or NaN) before it looks at the store, and refuses an account
    that is not active; in both cases nothing changes: no transaction is
    created and no balance is touched. *)
Theorem CreateDeposit_rejections (w : World) (accountID : string) (amount : Money)
    (p : ptr) (a : Account.t) :
  (IsPositive amount = false ->
     run (CreateDeposit accountID amount) w
       = Some (Err "deposit amount must be positive", w)) /\
  (IsPositive amount = true ->
   accounts w !! accountID = Some p -> account_objs w !! p = Some a ->
   Account.IsActive a = false ->
     run (CreateDeposit accountID amount) w = Some (Err "account is not active", w)).
Proof.
  split.
  - intros Hpos. unfold CreateDeposit. rewrite Hpos. reflexivity.
  - intros Hpos Hk Hp Hact. unfold CreateDeposit. exec. reflexivity.
Qed.

(** X14. [CreateWithdrawal] of a positive amount that the balance is
    not less than succeeds on every stored account, whatever its status
    (it does not ask whether the account is active): it returns a
    transaction of type Withdrawal with status Completed and a reader then
    finds the balance minus the amount. *)
Theorem CreateWithdrawal_subtracts_amount (w : World) (accountID : string)
    (amount : Money) (p : ptr) (a : Account.t) :
  IsPositive amount = true ->
  stored_account w accountID p a ->
  ltb (Account.Balance a) (Amount amount) = false ->
  exists (tx : ptr) (w' : World) (x : Transaction.t),
    run (CreateWithdrawal accountID amount) w = Some (Ok tx, w') /\
    run (AccountRepositoryImpl.GetBalance accountID) w'
      = Some (Ok (sub (Account.Balance a) (Amount amount)), w') /\
    transaction_objs w' !! tx = Some x /\
    Transaction.Type_ x = Transaction.TransactionTypeWithdrawal /\
    Transaction.Status x = Transaction.TransactionStatusCompleted /\
    Account.Status <$> account_objs w' !! p = Some (Account.Status a).
Proof.
  intros Hpos (Hk & Hp & Hid & Hne) Hlt.
  apply String.eqb_neq in Hne.
  unfold CreateWithdrawal. exec. rewrite Hid. exec.
  do 3 eexists. split; [reflexivity|]. exec.
  repeat split; reflexivity.
Qed.

(** X15. [CreateTransfer] refuses, in this order, a transfer to the same
    account, a source that is not stored, a target that is not stored, a
    source or target that is not active, and a source balance less than
    the amount; in every case nothing changes: no transaction is created
    and no balance is touched. *)
Theorem CreateTransfer_rejections (w : World) (sourceAccountID targetAccountID : string)
    (amount : Money) (ps pt : ptr) (s t : Account.t) :
  (sourceAccountID = targetAccountID ->
     run (CreateTransfer sourceAccountID targetAccountID amount) w
       = Some (Err "cannot transfer to same account", w)) /\
  (sourceAccountID <> targetAccountID ->
   accounts w !! sourceAccountID = None ->
     run (CreateTransfer sourceAccountID targetAccountID amount) w
       = Some (Err "source account not found", w)) /\
  (sourceAccountID <> targetAccountID ->
   accounts w !! sourceAccountID = Some ps ->
   accounts w !! targetAccountID = None ->
     run (CreateTransfer sourceAccountID targetAccountID amount) w
       = Some (Err "target account not found", w)) /\
  (sourceAccountID <> targetAccountID ->
   accounts w !! sourceAccountID = Some ps -> account_objs w !! ps = Some s ->
   accounts w !! targetAccountID = Some pt -> account_objs w !! pt = Some t ->
   Account.IsActive s && Account.IsActive t = false ->
     run (CreateTransfer sourceAccountID targetAccountID amount) w
       = Some (Err "both accounts must be active", w)) /\
  (sourceAccountID <> targetAccountID ->
   accounts w !! sourceAccountID = Some ps -> account_objs w !! ps = Some s ->
   accounts w !! targetAccountID = Some pt -> account_objs w !! pt = Some t ->
   Account.IsActive s && Account.IsActive t = true ->
   ltb (Account.Balance s) (Amount amount) = true ->
     run (CreateTransfer sourceAccountID targetAccountID amount) w
       = Some (Err "insufficient balance", w)).
Proof.
  unfold CreateTransfer. repeat match goal with |- _ /\ _ => split end.
  - intros ->. rewrite String.eqb_refl. reflexivity.
  - intros Hne Hs. apply String.eqb_neq in Hne. rewrite Hne. cbn. rewrite Hs. reflexivity.
  - intros Hne Hs Ht. apply String.eqb_neq in Hne. rewrite Hne. cbn.
    rewrite Hs. cbn. rewrite Ht. reflexivity.
  - intros Hne Hs Hps Ht Hpt Hact. apply String.eqb_neq in Hne. rewrite Hne. cbn.
    rewrite Hs. cbn. rewrite Ht. cbn. rewrite Hps. cbn.
    destruct (Account.IsActive s); cbn; [|reflexivity].
    rewrite Hpt. cbn. cbn in Hact. rewrite Hact. reflexivity.
  - intros Hne Hs Hps Ht Hpt Hact Hlt. apply String.eqb_neq in Hne.
    apply andb_true_iff in Hact as [Hsa Hta].
    exec. reflexivity.
Qed.


(** X17. After a successful transfer the store holds one record for it
    under the generated id: type Transfer, status Completed, the amount,
    the source id both as account id and as source, and the target id as
    target. *)
Theorem CreateTransfer_record (w : World) (sourceAccountID targetAccountID : string)
    (amount : Money) (ps pt : ptr) (s t : Account.t) :
  sourceAccountID <> targetAccountID ->
  stored_account w sourceAccountID ps s ->
  stored_account w targetAccountID pt t ->
  Account.IsActive s = true ->
  Account.IsActive t = true ->
  ltb (Account.Balance s) (Amount amount) = false ->
  exists (tx : ptr) (w' : World),
    run (CreateTransfer sourceAccountID targetAccountID amount) w = Some (Ok tx, w') /\
    run (GetTransaction generateTransactionID) w' = Some (Ok tx, w') /\
    transactions w' = <[generateTransactionID := tx]> (transactions w) /\
    transaction_objs w' !! tx =
      Some (Transaction.mk generateTransactionID sourceAccountID
              Transaction.TransactionTypeTransfer Transaction.TransactionStatusCompleted
              (Amount amount) EmptyString sourceAccountID targetAccountID
              (clock w) (Some (S (S (S (clock w)))))).
Proof.
  intros Hids Hs Ht Hsact Htact Hlt.
  pose proof (stored_account_distinct _ _ _ _ _ _ _ Hids Hs Ht) as Hptr.
  destruct Hs as (Hks & Hps & Hsid & Hsne), Ht as (Hkt & Hpt & Htid & Htne).
  apply String.eqb_neq in Hsne, Htne.
  pose proof (proj2 (String.eqb_neq _ _) Hids) as Hneq.
  unfold CreateTransfer.
  exec. rewrite Hsid. exec. rewrite Htid. exec.
  do 2 eexists. split; [reflexivity|].
  split; [unfold GetTransaction; exec; reflexivity|].
  split; [reflexivity|].
  exec. reflexivity.
Qed.

(** X18. [DepositHandler.Handle] never looks at the currency of the
    command: on a stored active account a deposit command with a positive
    amount succeeds in any currency, the balance grows by the amount, and
    [GetAccountBalance] reports it in USD; a command that differs in the
    currency only runs in the same way. *)
Theorem DepositHandler_ignores_currency (w : World) (cmd : DepositCommand.t)
    (currency : Currency) (p : ptr) (a : Account.t) :
  ltb zero (DepositCommand.Amount cmd) = true ->
  stored_account w (DepositCommand.AccountID cmd) p a ->
  Account.IsActive a = true ->
  (exists (tx : ptr) (w' : World),
     run (commands.DepositHandler_Handle cmd) w = Some (Ok tx, w') /\
     run (GetAccountBalance (DepositCommand.AccountID cmd)) w'
       = Some (Ok (NewMoney (add (Account.Balance a) (DepositCommand.Amount cmd))
                     CurrencyUSD), w')) /\
  run (commands.DepositHandler_Handle
         (DepositCommand.mk (DepositCommand.AccountID cmd) (DepositCommand.Amount cmd)
            currency)) w
    = run (commands.DepositHandler_Handle cmd) w.
Proof.
  intros Hpos (Hk & Hp & Hid & Hne) Hact.
  apply String.eqb_neq in Hne. split; [|reflexivity].
  unfold commands.DepositHandler_Handle, CreateDeposit, IsPositive, NewMoney.
  exec. rewrite Hid. exec.
  do 2 eexists. split; [reflexivity|].
  unfold GetAccountBalance. exec. reflexivity.
Qed.

(** ** Processing pending transactions on a well-formed store *)

Lemma process_one_stored (w : World) (k : string) (tx : ptr) (x : Transaction.t) :
  stored_transaction w k tx x ->
  exists w',
    run (process_one tx) w = Some (tt, w') /\
    transactions w' = transactions w /\
    accounts w' = accounts w /\
    account_objs w' = account_objs w /\
    transaction_objs w' =
      (if Transaction.IsPending x
       then <[tx := Transaction.Complete_at (clock w) x]> (transaction_objs w)
       else transaction_objs w).
Proof.
  intros (Hk & Hx & Hid & Hne).
  pose proof (proj2 (String.eqb_neq _ _) Hne) as Hneb. rewrite <- Hid in Hneb.
  unfold process_one. destruct (Transaction.IsPending x) eqn:Hpend.
  - exec. eexists. split; [reflexivity|]. cbn.
    split; [rewrite Hid; apply insert_id; exact Hk|]. repeat split.
  - exec. exists w. repeat split.
Qed.

Lemma process_all_stored (pendingTxs : list ptr) (w : World) :
  store_wf w ->
  (forall p, p ∈ pendingTxs -> exists k, transactions w !! k = Some p) ->
  exists w',
    run (process_all pendingTxs) w = Some (tt, w') /\
    store_wf w' /\
    transactions w' = transactions w /\
    accounts w' = accounts w /\
    account_objs w' = account_objs w /\
    (forall q x, transaction_objs w !! q = Some x ->
       Transaction.IsPending x = false -> transaction_objs w' !! q = Some x) /\
    (forall q x, transaction_objs w !! q = Some x ->
       Transaction.IsPending x = true ->
       transaction_objs w' !! q = Some x \/
       exists t, transaction_objs w' !! q = Some (Transaction.Complete_at t x)) /\
    (forall p x, p ∈ pendingTxs -> transaction_objs w !! p = Some x ->
       Transaction.IsPending x = true ->
       exists t, transaction_objs w' !! p = Some (Transaction.Complete_at t x)).
Proof.
  revert w. induction pendingTxs as [|tx rest IH]; intros w Hwf Hstored.
  - exists w. split; [reflexivity|]. split; [exact Hwf|].
    split; [reflexivity|]. split; [reflexivity|]. split; [reflexivity|].
    split; [tauto|]. split; [tauto|]. intros p x Hp. inversion Hp.
  - destruct (Hstored tx) as (k & Hk); [left|].
    destruct (proj2 Hwf k tx Hk) as (x & Hst).
    destruct (process_one_stored w k tx x Hst) as (w1 & Hrun1 & Ht1 & Ha1 & Hao1 & Hobjs1).
    assert (Hwf1 : store_wf w1).
    { exact (steps_preserve_run store_wf _ _ _ _ (steps_preserve_process_one tx)
               Hwf Hrun1). }
    destruct (IH w1 Hwf1) as (w2 & Hrun2 & Hwf2 & Ht2 & Ha2 & Hao2 & Hkeep2 & Hmay2 & Hdone2).
    { intros p Hp. rewrite Ht1. apply Hstored. right. assumption. }
    destruct Hst as (_ & Hx & _ & _).
    assert (Hstep : forall q y, transaction_objs w !! q = Some y ->
              (transaction_objs w1 !! q = Some y) \/
              (q = tx /\ y = x /\ Transaction.IsPending x = true /\
               transaction_objs w1 !! q = Some (Transaction.Complete_at (clock w) x))).
    { intros q y Hq. rewrite Hobjs1. destruct (Transaction.IsPending x) eqn:Hpend.
      - destruct (decide (tx = q)) as [<- | Hne].
        + right. rewrite Hx in Hq. injection Hq as <-.
          repeat split. apply list_lookup_insert_eq. eapply lookup_lt_Some, Hx.
        + left. rewrite list_lookup_insert_ne by exact Hne. exact Hq.
      - left. exact Hq. }
    exists w2. split.
    { change (process_all (tx :: rest))
        with (bind (process_one tx) (fun _ => process_all rest)).
      rewrite run_bind, Hrun1. exact Hrun2. }
    split; [exact Hwf2|]. split; [congruence|]. split; [congruence|].
    split; [congruence|]. split; [|split].
    + intros q y Hq Hpend. destruct (Hstep q y Hq) as [H1 | (-> & -> & Hp & _)].
      * eapply Hkeep2; eassumption.
      * congruence.
    + intros q y Hq Hpend. destruct (Hstep q y Hq) as [H1 | (-> & -> & _ & H1)].
      * eapply Hmay2; eassumption.
      * right. exists (clock w). eapply Hkeep2; [exact H1 | reflexivity].
    + intros p y Hp Hy Hpend. destruct (Hstep p y Hy) as [H1 | (-> & -> & _ & H1)].
      * apply elem_of_cons in Hp as [-> | Hp].
        -- rewrite Hx in Hy. injection Hy as <-.
           rewrite Hobjs1, Hpend in H1.
           rewrite list_lookup_insert_eq in H1 by (eapply lookup_lt_Some, Hx).
           injection H1 as H1. exfalso.
           assert (Hs : Transaction.Status (Transaction.Complete_at (clock w) x)
                        = Transaction.Status x) by (rewrite H1; reflexivity).
           unfold Transaction.IsPending in Hpend. rewrite <- Hs in Hpend.
           discriminate.
        -- eapply Hdone2; eassumption.
      * exists (clock w). eapply Hkeep2; [exact H1 | reflexivity].
Qed.

Lemma store_wf_transactions_valid (w : World) : store_wf w -> transactions_valid w.
Proof.
  intros [_ Ht] k p Hk. destruct (Ht k p Hk) as (x & _ & Hx & _). eauto.
Qed.

(** X19. On a well-formed store [ProcessPendingTransactions] never
    marks a transaction Failed: it returns normally, every stored
    transaction that was Pending is now Completed with a processing time,
    every other transaction is as it was, and the two maps and the
    accounts are untouched.  It is idempotent: a second run, whatever the
    order of its visit, finds nothing to process and changes nothing. *)
Theorem ProcessPendingTransactions_completes_all (w : World) (iter iter' : list string) :
  store_wf w ->
  range_order (transactions w) iter ->
  exists w',
    run (ProcessPendingTransactions iter) w = Some (Ok tt, w') /\
    store_wf w' /\
    transactions w' = transactions w /\
    accounts w' = accounts w /\
    account_objs w' = account_objs w /\
    (forall k p x, transactions w !! k = Some p -> transaction_objs w !! p = Some x ->
       if Transaction.IsPending x
       then exists t, transaction_objs w' !! p = Some (Transaction.Complete_at t x)
       else transaction_objs w' !! p = Some x) /\
    run (ProcessPendingTransactions iter') w' = Some (Ok tt, w').
Proof.
  intros Hwf Hperm.
  pose proof (store_wf_transactions_valid w Hwf) as Hv.
  destruct (select_objs_spec (transaction_objs w) Transaction.IsPending
              (range_values (transactions w) iter)) as (r & Hr & _ & Hspec).
  { intros p Hp. eapply transactions_valid_range; eassumption. }
  destruct (process_all_stored r w Hwf)
    as (w' & Hrun & Hwf' & Ht & Ha & Hao & Hkeep & _ & Hdone).
  { intros p Hp. apply Hspec in Hp as (Hp & _). eapply range_values_stored, Hp. }
  assert (Hall : forall k p x, transactions w !! k = Some p ->
            transaction_objs w !! p = Some x ->
            if Transaction.IsPending x
            then exists t, transaction_objs w' !! p = Some (Transaction.Complete_at t x)
            else transaction_objs w' !! p = Some x).
  { intros k p x Hk Hx. destruct (Transaction.IsPending x) eqn:Hpend.
    - eapply Hdone; [|exact Hx | exact Hpend]. apply Hspec. split.
      + apply range_values_elem; [assumption | eauto].
      + eauto.
    - eapply Hkeep; eassumption. }
  exists w'. split.
  { unfold ProcessPendingTransactions, bindR,
      TransactionRepositoryImpl.GetPendingTransactions.
    cbn [bind atomic run]. rewrite Hr. rewrite run_bind, Hrun. reflexivity. }
  split; [exact Hwf'|]. split; [exact Ht|]. split; [exact Ha|]. split; [exact Hao|].
  split; [exact Hall|].
  pose proof (store_wf_transactions_valid w' Hwf') as Hv'.
  destruct (select_objs_spec (transaction_objs w') Transaction.IsPending
              (range_values (transactions w') iter')) as (r' & Hr' & _ & Hspec').
  { intros p Hp. eapply transactions_valid_range; eassumption. }
  assert (Hnil : r' = []).
  { destruct r' as [|q r'']; [reflexivity|]. exfalso.
    destruct (proj1 (Hspec' q)) as (Hq & y & Hy & Hpend); [left|].
    apply range_values_stored in Hq as (k & Hk). rewrite Ht in Hk.
    destruct (Hv k q Hk) as [x Hx].
    specialize (Hall k q x Hk Hx). destruct (Transaction.IsPending x) eqn:Hpx.
    - destruct Hall as (t & Hq'). rewrite Hq' in Hy. injection Hy as <-. discriminate.
    - rewrite Hall in Hy. injection Hy as <-. congruence. }
  unfold ProcessPendingTransactions, bindR,
    TransactionRepositoryImpl.GetPendingTransactions.
  cbn [bind atomic run]. rewrite Hr', Hnil. reflexivity.
Qed.

(** ** Migration to AccountV2 *)

(** X20. [MigrateToV2] keeps what the account shows and commutes with
    the operations both versions have: the migrated account is active
    exactly when the old one is, has the same balance and email, and
    migrating after [UpdateBalance] or [Suspend] gives the same object as
    applying the V2 operation after migrating; a new account migrates to
    a new V2 account. *)
Theorem MigrateToV2_commutes (old : Account.t) (now : Time) (amount : float64)
    (id ownerID email : string) (accountType : Account.AccountType) :
  AccountV2.IsActive (AccountV2.MigrateToV2 old) = Account.IsActive old /\
  AccountV2.GetBalance (AccountV2.MigrateToV2 old) = Account.GetBalance old /\
  AccountV2.GetEmail (AccountV2.MigrateToV2 old) = Account.Email old /\
  AccountV2.MigrateToV2 (Account.UpdateBalance_at now amount old)
    = AccountV2.UpdateBalance_at now amount (AccountV2.MigrateToV2 old) /\
  AccountV2.MigrateToV2 (Account.Suspend_at now old)
    = AccountV2.Suspend_at now (AccountV2.MigrateToV2 old) /\
  AccountV2.MigrateToV2 (Account.NewAccount_at now id ownerID email accountType)
    = AccountV2.NewAccountV2_at now id ownerID email accountType.
Proof. repeat split. Qed.

(** ** Sessions *)

Lemma Extend_all_IsValid (calls : list (Z * Z)) (s : Session.t) :
  Session.IsValid (Session.Extend_all calls s) = Session.IsValid s.
Proof.
  revert s. induction calls as [|[now duration] calls IH]; intros s; [reflexivity|].
  simpl. rewrite IH. reflexivity.
Qed.

(** X21. An invalidated session is never active again: after
    [Invalidate], and whatever calls of [Extend] follow, [IsActive] and
    [Validate] are false at every time.  [Extend] replaces the expiry by
    the time of the call plus the duration (it does not add to the old
    expiry): a valid session is then active exactly up to that time, and
    a new session exactly up to its creation time plus its expiry. *)
Theorem Session_invalidate_is_final (format : Z -> string) (s : Session.t)
    (calls : list (Z * Z)) (t now now1 now2 duration expiry : Z)
    (userID token : string) :
  Session.IsActive_at t (Session.Extend_all calls (Session.Invalidate s)) = false /\
  Session.Validate_at t (Session.Extend_all calls (Session.Invalidate s)) = false /\
  Session.IsActive_at t (Session.Extend_at now duration s)
    = Session.IsValid s && (t <=? now + duration)%Z /\
  Session.IsActive_at t (Session.NewSession_at format now1 now2 userID token expiry)
    = (t <=? now2 + expiry)%Z.
Proof.
  unfold Session.Validate_at, Session.IsActive_at, Session.IsExpired_at.
  rewrite Extend_all_IsValid. cbn.
  rewrite <- !Z.leb_antisym. repeat split.
Qed.

(** ** Money *)

Lemma add_comm (x y : float64) : add x y = add y x.
Proof.
  unfold add.
  destruct x as [sx|sx| |sx mx ex], y as [sy|sy| |sy my ey]; simpl;
    try reflexivity;
    try (destruct sx, sy; reflexivity).
  rewrite (Z.min_comm ey ex).
  rewrite (Z.add_comm (cond_Zopp sy _)). reflexivity.
Qed.

(** X22. [Add] is commutative on every pair of Money values: with
    different currencies both orders fail with the same error, with equal
    currencies both give the same Money. *)
Theorem Money_Add_commutative (m other : Money) : Add m other = Add other m.
Proof.
  unfold Add. rewrite (String.eqb_sym (Currency_ other)).
  destruct (String.eqb (Currency_ m) (Currency_ other)) eqn:E; simpl; [|reflexivity].
  apply String.eqb_eq in E. rewrite E, add_comm. reflexivity.
Qed.

(** ** Frame and interleaving *)

(** X23. A successful transfer changes nothing but the two accounts and
    the new transaction: the account map is as before, every other
    account object is as before, and every transaction object that
    existed is as before. *)
Theorem CreateTransfer_frame (w : World) (sourceAccountID targetAccountID : string)
    (amount : Money) (ps pt : ptr) (s t : Account.t) :
  sourceAccountID <> targetAccountID ->
  stored_account w sourceAccountID ps s ->
  stored_account w targetAccountID pt t ->
  Account.IsActive s = true ->
  Account.IsActive t = true ->
  ltb (Account.Balance s) (Amount amount) = false ->
  exists (tx : ptr) (w' : World),
    run (CreateTransfer sourceAccountID targetAccountID amount) w = Some (Ok tx, w') /\
    accounts w' = accounts w /\
    (forall q, q <> ps -> q <> pt -> account_objs w' !! q = account_objs w !! q) /\
    (forall q x, transaction_objs w !! q = Some x -> transaction_objs w' !! q = Some x) /\
    transaction_objs w !! tx = None.
Proof.
  intros Hids Hs Ht Hsact Htact Hlt.
  pose proof (stored_account_distinct _ _ _ _ _ _ _ Hids Hs Ht) as Hptr.
  destruct Hs as (Hks & Hps & Hsid & Hsne), Ht as (Hkt & Hpt & Htid & Htne).
  apply String.eqb_neq in Hsne, Htne.
  pose proof (proj2 (String.eqb_neq _ _) Hids) as Hneq.
  unfold CreateTransfer.
  exec. rewrite Hsid. exec. rewrite Htid. exec.
  do 2 eexists. split; [reflexivity|]. cbn.
  split; [rewrite !insert_id; [reflexivity | assumption | rewrite insert_id; assumption]|].
  split.
  { intros q Hqs Hqt. rewrite !list_lookup_insert_ne by congruence. reflexivity. }
  split.
  { intros q x Hq. pose proof (lookup_lt_Some _ _ _ Hq) as Hlt'.
    rewrite !list_lookup_insert_ne by lia.
    rewrite lookup_app_l by exact Hlt'. exact Hq. }
  apply lookup_ge_None. lia.
Qed.

(** X24. Deposits are not serialised: for every stored active account
    and every two positive amounts there is a schedule of two concurrent
    deposits in which both succeed and the first amount is lost: the
    final balance is the balance before plus the second amount only. *)
Theorem concurrent_deposits_lose_update (w : World) (accountID : string)
    (amount1 amount2 : Money) (p : ptr) (a : Account.t) :
  IsPositive amount1 = true ->
  IsPositive amount2 = true ->
  stored_account w accountID p a ->
  Account.IsActive a = true ->
  exists (tx1 tx2 : ptr) (w' : World),
    interleave (replicate 4 false ++ replicate 8 true ++ replicate 4 false)
      (CreateDeposit accountID amount1) (CreateDeposit accountID amount2) w
      = Some (Ret (Ok tx1), Ret (Ok tx2), w') /\
    tx1 <> tx2 /\
    run (AccountRepositoryImpl.GetBalance accountID) w'
      = Some (Ok (add (Account.Balance a) (Amount amount2)), w').
Proof.
  intros Hpos1 Hpos2 (Hk & Hp & Hid & Hne) Hact.
  apply String.eqb_neq in Hne.
  unfold CreateDeposit. rewrite Hpos1, Hpos2.
  pose proof Hact as Hact'. unfold Account.IsActive in Hact'.
  repeat first
    [ progress exec
    | progress unfold Account.IsActive
    | rewrite Hid
    | rewrite list_lookup_insert_ne by (rewrite ?length_app; cbn; lia)
    | rewrite lookup_app_l by (rewrite ?length_app; cbn; lia) ].
  do 3 eexists. split; [reflexivity|].
  split; [rewrite length_app; cbn; lia|].
  exec. reflexivity.
Qed.

(** ** The further properties at concrete stores *)

Import Fixtures.

(** Inversion of a lookup in the two-account store. *)
Ltac two_entries Hk :=
  cbn in Hk; apply lookup_insert_Some in Hk as [[<- <-] | [_ Hk]];
  [| apply lookup_singleton_Some in Hk as [<- <-]].

Lemma store_wf_world_AB (a b : float64) : store_wf (world_AB a b).
Proof.
  split.
  - intros id p Hk. two_entries Hk.
    + exists (account_B b). stored.
    + exists (account_A a). stored.
  - intros id p Hk. cbn in Hk. rewrite lookup_empty in Hk. discriminate.
Defined.

Lemma store_wf_world_tx : store_wf world_tx.
Proof.
  split.
  - intros id p Hk. cbn in Hk. rewrite lookup_empty in Hk. discriminate.
  - intros id p Hk. two_entries Hk.
    + exists completed_tx. stored.
    + exists pending_tx. stored.
Defined.

Lemma range_order_world_AB (a b : float64) :
  range_order (accounts (world_AB a b)) ["acc_A"; "acc_B"].
Proof. unfold range_order. vm_compute. first [reflexivity | apply perm_swap]. Defined.

(** X1 at a client session on the empty store. *)
Lemma reachable_store_wf_witness :
  exists w, run (perform_all client_calls) (empty_world 0) = Some (tt, w) /\ store_wf w.
Proof.
  eexists. split; [vm_compute; reflexivity|].
  apply (reachable_store_wf client_calls 0). vm_compute. reflexivity.
Defined.

(** X2 at a transfer interleaved with a reader. *)
Lemma interleaved_store_wf_witness :
  exists p' q' w',
    interleave (replicate 10 true ++ [false])
      (perform (CallCreateTransfer "acc_A" "acc_B" (usd (of_Z 40))))
      (perform (CallGetAccountBalance "acc_A"))
      (world_AB (of_Z 100) (of_Z 0)) = Some (p', q', w') /\
    store_wf w'.
Proof.
  do 3 eexists. split; [vm_compute; reflexivity|].
  eapply (interleaved_store_wf (replicate 10 true ++ [false])
            (CallCreateTransfer "acc_A" "acc_B" (usd (of_Z 40)))
            (CallGetAccountBalance "acc_A") (world_AB (of_Z 100) (of_Z 0))).
  - apply store_wf_world_AB.
  - vm_compute. reflexivity.
Defined.

(** X3 at an unsaved account acc_A, and at an account without ID. *)
Lemma account_Save_then_FindByID_witness :
  (exists w',
     run (AccountRepositoryImpl.Save 0) (world_unsaved (account_A (of_Z 100)))
       = Some (Ok tt, w') /\
     run (AccountRepositoryImpl.FindByID "acc_A") w' = Some (Ok 0, w') /\
     run (AccountRepositoryImpl.GetBalance "acc_A") w' = Some (Ok (of_Z 100), w') /\
     account_objs w' = account_objs (world_unsaved (account_A (of_Z 100))) /\
     forall id, id <> "acc_A" ->
       accounts w' !! id = accounts (world_unsaved (account_A (of_Z 100))) !! id) /\
  run (AccountRepositoryImpl.Save 0) (world_unsaved nameless_account)
    = Some (Err "account ID is required", world_unsaved nameless_account).
Proof.
  split.
  - apply (proj2 (account_Save_then_FindByID (world_unsaved (account_A (of_Z 100))) 0
                    (account_A (of_Z 100)) eq_refl)).
    discriminate.
  - apply (proj1 (account_Save_then_FindByID (world_unsaved nameless_account) 0
                    nameless_account eq_refl)).
    reflexivity.
Defined.

(** X4 at the two-account store: acc_B is deleted, acc_C is not there. *)
Lemma account_Delete_removes_entry_witness :
  (exists w',
     run (AccountRepositoryImpl.Delete "acc_B") (world_AB (of_Z 100) (of_Z 0))
       = Some (Ok tt, w') /\
     run (AccountRepositoryImpl.FindByID "acc_B") w' = Some (Err "account not found", w') /\
     run (AccountRepositoryImpl.GetBalance "acc_B") w'
       = Some (Err "account not found", w') /\
     account_objs w' = account_objs (world_AB (of_Z 100) (of_Z 0)) /\
     forall id', id' <> "acc_B" ->
       accounts w' !! id' = accounts (world_AB (of_Z 100) (of_Z 0)) !! id') /\
  run (AccountRepositoryImpl.Delete "acc_C") (world_AB (of_Z 100) (of_Z 0))
    = Some (Err "account not found", world_AB (of_Z 100) (of_Z 0)).
Proof.
  split.
  - apply (proj2 (account_Delete_removes_entry (world_AB (of_Z 100) (of_Z 0)) "acc_B") 1).
    vm_compute. reflexivity.
  - apply (proj1 (account_Delete_removes_entry (world_AB (of_Z 100) (of_Z 0)) "acc_C")).
    vm_compute. reflexivity.
Defined.

(** X5 at the two-account store. *)
Lemma account_FindByEmail_finds_witness :
  (exists p k a,
     run (AccountRepositoryImpl.FindByEmail ["acc_A"; "acc_B"] "owner@example.com")
         (world_AB (of_Z 100) (of_Z 0)) = Some (Ok p, world_AB (of_Z 100) (of_Z 0)) /\
     accounts (world_AB (of_Z 100) (of_Z 0)) !! k = Some p /\
     account_objs (world_AB (of_Z 100) (of_Z 0)) !! p = Some a /\
     Account.Email a = "owner@example.com") \/
  (run (AccountRepositoryImpl.FindByEmail ["acc_A"; "acc_B"] "owner@example.com")
       (world_AB (of_Z 100) (of_Z 0))
     = Some (Err "account not found", world_AB (of_Z 100) (of_Z 0)) /\
   forall k p a, accounts (world_AB (of_Z 100) (of_Z 0)) !! k = Some p ->
                 account_objs (world_AB (of_Z 100) (of_Z 0)) !! p = Some a ->
                 Account.Email a <> "owner@example.com").
Proof.
  apply (account_FindByEmail_finds (world_AB (of_Z 100) (of_Z 0)) ["acc_A"; "acc_B"]
           "owner@example.com").
  - apply store_wf_world_AB.
  - apply range_order_world_AB.
Defined.

(** X6 at the two-account store. *)
Lemma account_FindByOwnerID_exact_witness :
  exists r : list ptr,
    run (AccountRepositoryImpl.FindByOwnerID ["acc_A"; "acc_B"] "owner")
        (world_AB (of_Z 100) (of_Z 0)) = Some (Ok r, world_AB (of_Z 100) (of_Z 0)) /\
    sublist r (range_values (accounts (world_AB (of_Z 100) (of_Z 0))) ["acc_A"; "acc_B"]) /\
    forall p, p ∈ r <->
      exists k a, accounts (world_AB (of_Z 100) (of_Z 0)) !! k = Some p /\
                  account_objs (world_AB (of_Z 100) (of_Z 0)) !! p = Some a /\
                  Account.OwnerID a = "owner".
Proof.
  apply (account_FindByOwnerID_exact (world_AB (of_Z 100) (of_Z 0)) ["acc_A"; "acc_B"]
           "owner").
  - apply store_wf_world_AB.
  - apply range_order_world_AB.
Defined.

(** X7 at an unsaved transaction t1, and at a transaction without ID. *)
Lemma transaction_Save_then_FindByID_witness :
  (exists w',
     run (TransactionRepositoryImpl.Save 0) (world_unsaved_tx pending_tx)
       = Some (Ok tt, w') /\
     run (TransactionRepositoryImpl.FindByID "t1") w' = Some (Ok 0, w') /\
     transaction_objs w' = transaction_objs (world_unsaved_tx pending_tx) /\
     forall id, id <> "t1" ->
       transactions w' !! id = transactions (world_unsaved_tx pending_tx) !! id) /\
  run (TransactionRepositoryImpl.Save 0) (world_unsaved_tx nameless_tx)
    = Some (Err "transaction ID is required", world_unsaved_tx nameless_tx).
Proof.
  split.
  - apply (proj2 (transaction_Save_then_FindByID (world_unsaved_tx pending_tx) 0
                    pending_tx eq_refl)).
    discriminate.
  - apply (proj1 (transaction_Save_then_FindByID (world_unsaved_tx nameless_tx) 0
                    nameless_tx eq_refl)).
    reflexivity.
Defined.

(** X8 at the store with one pending and one completed transaction. *)
Lemma transaction_GetPendingTransactions_exact_witness :
  exists r : list ptr,
    run (TransactionRepositoryImpl.GetPendingTransactions ["t1"; "t2"]) world_tx
      = Some (Ok r, world_tx) /\
    forall p, p ∈ r <->
      exists k x, transactions world_tx !! k = Some p /\
                  transaction_objs world_tx !! p = Some x /\
                  Transaction.Status x = Transaction.TransactionStatusPending.
Proof.
  apply (transaction_GetPendingTransactions_exact world_tx ["t1"; "t2"]
           transactions_valid_world_tx range_order_world_tx).
Defined.

(** X9 at the two-account store: a taken email and a new one. *)
Lemma CreateAccount_email_check_witness :
  run (CreateAccount ["acc_A"; "acc_B"] "owner2" "owner@example.com"
         Account.AccountTypeBusiness) (world_AB (of_Z 100) (of_Z 0))
    = Some (Err "account with email already exists", world_AB (of_Z 100) (of_Z 0)) /\
  exists w',
    run (CreateAccount ["acc_A"; "acc_B"] "owner2" "new@example.com"
           Account.AccountTypeBusiness) (world_AB (of_Z 100) (of_Z 0))
      = Some (Ok 2, w') /\
    accounts w' = <[generateAccountID := 2]> (accounts (world_AB (of_Z 100) (of_Z 0))).
Proof.
  split.
  - apply (proj1 (CreateAccount_email_check (world_AB (of_Z 100) (of_Z 0))
                    ["acc_A"; "acc_B"] "owner2" "owner@example.com"
                    Account.AccountTypeBusiness (proj1 (store_wf_world_AB _ _))
                    (range_order_world_AB _ _))).
    exists "acc_A", 0, (account_A (of_Z 100)).
    split; [vm_compute; reflexivity|]. split; reflexivity.
  - destruct (proj2 (CreateAccount_email_check (world_AB (of_Z 100) (of_Z 0))
                       ["acc_A"; "acc_B"] "owner2" "new@example.com"
                       Account.AccountTypeBusiness (proj1 (store_wf_world_AB _ _))
                       (range_order_world_AB _ _)))
      as (w' & Hrun & _ & Hacc & _).
    + intros k p a Hk Ha. two_entries Hk; cbn in Ha; injection Ha as <-; discriminate.
    + exists w'. split; [exact Hrun | exact Hacc].
Defined.

(** X10 at acc_A = 100, overwritten with -5. *)
Lemma UpdateAccountBalance_then_GetAccountBalance_witness :
  exists w',
    run (UpdateAccountBalance "acc_A" (of_Z (-5))) (world_A (of_Z 100)) = Some (Ok tt, w') /\
    run (GetAccountBalance "acc_A") w' = Some (Ok (NewMoney (of_Z (-5)) CurrencyUSD), w') /\
    stored_account w' "acc_A" 0
      (Account.UpdateBalance_at 1 (of_Z (-5)) (account_A (of_Z 100))) /\
    Account.Status (Account.UpdateBalance_at 1 (of_Z (-5)) (account_A (of_Z 100)))
      = Account.AccountStatusActive.
Proof.
  apply (UpdateAccountBalance_then_GetAccountBalance (world_A (of_Z 100)) "acc_A"
           (of_Z (-5)) 0 (account_A (of_Z 100))).
  stored.
Defined.

(** X11 at acc_A = 100 and a deposit of 10 after the suspension. *)
Lemma SuspendAccount_blocks_deposits_witness :
  exists w',
    run (SuspendAccount "acc_A") (world_A (of_Z 100)) = Some (Ok tt, w') /\
    stored_account w' "acc_A" 0 (Account.Suspend_at 1 (account_A (of_Z 100))) /\
    run (CreateDeposit "acc_A" (usd (of_Z 10))) w'
      = Some (Err "account is not active", w') /\
    run (GetAccountTransactions [] "acc_A") w' = Some (Err "account is not active", w') /\
    run (GetAccountBalance "acc_A") w' = Some (Ok (NewMoney (of_Z 100) CurrencyUSD), w').
Proof.
  apply (SuspendAccount_blocks_deposits (world_A (of_Z 100)) "acc_A" (usd (of_Z 10)) []
           0 (account_A (of_Z 100))).
  stored.
Defined.

(** X12 at the store of acc_A and the id acc_C. *)
Lemma missing_account_is_not_found_witness :
  run (GetAccount "acc_C") (world_A zero) = Some (Err "account not found", world_A zero) /\
  run (GetAccountBalance "acc_C") (world_A zero)
    = Some (Err "account not found", world_A zero) /\
  run (UpdateAccountBalance "acc_C" (of_Z 1)) (world_A zero)
    = Some (Err "account not found", world_A zero) /\
  run (SuspendAccount "acc_C") (world_A zero)
    = Some (Err "account not found", world_A zero) /\
  run (GetAccountTransactions [] "acc_C") (world_A zero)
    = Some (Err "account not found", world_A zero) /\
  run (CreateDeposit "acc_C" (usd (of_Z 10))) (world_A zero)
    = Some (Err "account not found", world_A zero) /\
  run (CreateWithdrawal "acc_C" (usd (of_Z 10))) (world_A zero)
    = Some (Err "account not found", world_A zero).
Proof.
  apply (missing_account_is_not_found (world_A zero) "acc_C" (of_Z 1) (usd (of_Z 10)) []).
  - vm_compute. reflexivity.
  - vm_compute. reflexivity.
Defined.

(** X13 at a deposit of 0 and at a deposit into a suspended account. *)
Lemma CreateDeposit_rejections_witness :
  run (CreateDeposit "acc_A" (usd zero)) (world_A (of_Z 100))
    = Some (Err "deposit amount must be positive", world_A (of_Z 100)) /\
  run (CreateDeposit "acc_A" (usd (of_Z 10))) (world_suspended (of_Z 100))
    = Some (Err "account is not active", world_suspended (of_Z 100)).
Proof.
  split.
  - apply (proj1 (CreateDeposit_rejections (world_A (of_Z 100)) "acc_A" (usd zero) 0
                    (account_A (of_Z 100)))).
    reflexivity.
  - apply (proj2 (CreateDeposit_rejections (world_suspended (of_Z 100)) "acc_A"
                    (usd (of_Z 10)) 0 (suspended_A (of_Z 100)))).
    + vm_compute. reflexivity.
    + reflexivity.
    + reflexivity.
    + reflexivity.
Defined.

(** X14 at a suspended acc_A = 100 and a withdrawal of 30. *)
Lemma CreateWithdrawal_subtracts_amount_witness :
  exists (tx : ptr) (w' : World) (x : Transaction.t),
    run (CreateWithdrawal "acc_A" (usd (of_Z 30))) (world_suspended (of_Z 100))
      = Some (Ok tx, w') /\
    run (AccountRepositoryImpl.GetBalance "acc_A") w'
      = Some (Ok (sub (of_Z 100) (of_Z 30)), w') /\
    transaction_objs w' !! tx = Some x /\
    Transaction.Type_ x = Transaction.TransactionTypeWithdrawal /\
    Transaction.Status x = Transaction.TransactionStatusCompleted /\
    Account.Status <$> account_objs w' !! 0 = Some Account.AccountStatusSuspended.
Proof.
  apply (CreateWithdrawal_subtracts_amount (world_suspended (of_Z 100)) "acc_A"
           (usd (of_Z 30)) 0 (suspended_A (of_Z 100))).
  - vm_compute. reflexivity.
  - stored.
  - vm_compute. reflexivity.
Defined.

(** X15 at the two-account stores: the five refusals. *)
Lemma CreateTransfer_rejections_witness :
  run (CreateTransfer "acc_A" "acc_A" (usd (of_Z 40))) (world_AB (of_Z 100) (of_Z 0))
    = Some (Err "cannot transfer to same account", world_AB (of_Z 100) (of_Z 0)) /\
  run (CreateTransfer "acc_C" "acc_A" (usd (of_Z 40))) (world_AB (of_Z 100) (of_Z 0))
    = Some (Err "source account not found", world_AB (of_Z 100) (of_Z 0)) /\
  run (CreateTransfer "acc_A" "acc_C" (usd (of_Z 40))) (world_AB (of_Z 100) (of_Z 0))
    = Some (Err "target account not found", world_AB (of_Z 100) (of_Z 0)) /\
  run (CreateTransfer "acc_A" "acc_B" (usd (of_Z 40)))
      (world_A_suspended_B (of_Z 100) (of_Z 0))
    = Some (Err "both accounts must be active", world_A_suspended_B (of_Z 100) (of_Z 0)) /\
  run (CreateTransfer "acc_A" "acc_B" (usd (of_Z 400))) (world_AB (of_Z 100) (of_Z 0))
    = Some (Err "insufficient balance", world_AB (of_Z 100) (of_Z 0)).
Proof.
  split; [|split; [|split; [|split]]].
  - apply (proj1 (CreateTransfer_rejections (world_AB (of_Z 100) (of_Z 0)) "acc_A" "acc_A"
                    (usd (of_Z 40)) 0 0 (account_A (of_Z 100)) (account_A (of_Z 100)))).
    reflexivity.
  - apply (proj1 (proj2 (CreateTransfer_rejections (world_AB (of_Z 100) (of_Z 0))
                    "acc_C" "acc_A" (usd (of_Z 40)) 0 0
                    (account_A (of_Z 100)) (account_A (of_Z 100))))).
    + discriminate.
    + vm_compute. reflexivity.
  - apply (proj1 (proj2 (proj2 (CreateTransfer_rejections (world_AB (of_Z 100) (of_Z 0))
                    "acc_A" "acc_C" (usd (of_Z 40)) 0 0
                    (account_A (of_Z 100)) (account_A (of_Z 100)))))).
    + discriminate.
    + vm_compute. reflexivity.
    + vm_compute. reflexivity.
  - apply (proj1 (proj2 (proj2 (proj2 (CreateTransfer_rejections
                    (world_A_suspended_B (of_Z 100) (of_Z 0)) "acc_A" "acc_B"
                    (usd (of_Z 40)) 0 1 (account_A (of_Z 100))
                    (Account.mk "acc_B" "owner" "owner@example.com"
                       Account.AccountTypePersonal Account.AccountStatusSuspended
                       (of_Z 0) 0 0)))))).
    + discriminate.
    + vm_compute. reflexivity.
    + reflexivity.
    + vm_compute. reflexivity.
    + reflexivity.
    + reflexivity.
  - apply (proj2 (proj2 (proj2 (proj2 (CreateTransfer_rejections
                    (world_AB (of_Z 100) (of_Z 0)) "acc_A" "acc_B"
                    (usd (of_Z 400)) 0 1 (account_A (of_Z 100)) (account_B (of_Z 0))))))).
    + discriminate.
    + vm_compute. reflexivity.
    + reflexivity.
    + vm_compute. reflexivity.
    + reflexivity.
    + reflexivity.
    + vm_compute. reflexivity.
Defined.


(** X17 at acc_A = 100, acc_B = 0 and a transfer of 40. *)
Lemma CreateTransfer_record_witness :
  exists (tx : ptr) (w' : World),
    run (CreateTransfer "acc_A" "acc_B" (usd (of_Z 40))) (world_AB (of_Z 100) (of_Z 0))
      = Some (Ok tx, w') /\
    run (GetTransaction generateTransactionID) w' = Some (Ok tx, w') /\
    transactions w'
      = <[generateTransactionID := tx]> (transactions (world_AB (of_Z 100) (of_Z 0))) /\
    transaction_objs w' !! tx =
      Some (Transaction.mk generateTransactionID "acc_A"
              Transaction.TransactionTypeTransfer Transaction.TransactionStatusCompleted
              (of_Z 40) EmptyString "acc_A" "acc_B" 2 (Some 5)).
Proof.
  apply (CreateTransfer_record (world_AB (of_Z 100) (of_Z 0)) "acc_A" "acc_B"
           (usd (of_Z 40)) 0 1 (account_A (of_Z 100)) (account_B (of_Z 0))).
  - discriminate.
  - stored.
  - stored.
  - reflexivity.
  - reflexivity.
  - vm_compute. reflexivity.
Defined.

(** X18 at acc_A = 0 and a deposit command of 100 EUR, then GBP. *)
Lemma DepositHandler_ignores_currency_witness :
  (exists (tx : ptr) (w' : World),
     run (commands.DepositHandler_Handle (DepositCommand.mk "acc_A" (of_Z 100) CurrencyEUR))
         (world_A zero) = Some (Ok tx, w') /\
     run (GetAccountBalance "acc_A") w'
       = Some (Ok (NewMoney (add zero (of_Z 100)) CurrencyUSD), w')) /\
  run (commands.DepositHandler_Handle (DepositCommand.mk "acc_A" (of_Z 100) CurrencyGBP))
      (world_A zero)
    = run (commands.DepositHandler_Handle (DepositCommand.mk "acc_A" (of_Z 100) CurrencyEUR))
          (world_A zero).
Proof.
  apply (DepositHandler_ignores_currency (world_A zero)
           (DepositCommand.mk "acc_A" (of_Z 100) CurrencyEUR) CurrencyGBP 0 (account_A zero)).
  - vm_compute. reflexivity.
  - stored.
  - reflexivity.
Defined.

(** X19 at the store with one pending and one completed transaction. *)
Lemma ProcessPendingTransactions_completes_all_witness :
  exists w',
    run (ProcessPendingTransactions ["t1"; "t2"]) world_tx = Some (Ok tt, w') /\
    transactions w' = transactions world_tx /\
    (exists t, transaction_objs w' !! 0 = Some (Transaction.Complete_at t pending_tx)) /\
    transaction_objs w' !! 1 = Some completed_tx /\
    run (ProcessPendingTransactions ["t2"; "t1"]) w' = Some (Ok tt, w').
Proof.
  destruct (ProcessPendingTransactions_completes_all world_tx ["t1"; "t2"] ["t2"; "t1"]
              store_wf_world_tx range_order_world_tx)
    as (w' & Hrun & _ & Ht & _ & _ & Hall & Hagain).
  exists w'. split; [exact Hrun|]. split; [exact Ht|]. split; [|split].
  - apply (Hall "t1" 0 pending_tx); reflexivity.
  - apply (Hall "t2" 1 completed_tx); reflexivity.
  - exact Hagain.
Defined.

(** X23 at acc_A = 100, acc_B = 0 and a transfer of 40. *)
Lemma CreateTransfer_frame_witness :
  exists (tx : ptr) (w' : World),
    run (CreateTransfer "acc_A" "acc_B" (usd (of_Z 40))) (world_AB (of_Z 100) (of_Z 0))
      = Some (Ok tx, w') /\
    accounts w' = accounts (world_AB (of_Z 100) (of_Z 0)) /\
    (forall q, q <> 0 -> q <> 1 ->
       account_objs w' !! q = account_objs (world_AB (of_Z 100) (of_Z 0)) !! q) /\
    (forall q x, transaction_objs (world_AB (of_Z 100) (of_Z 0)) !! q = Some x ->
       transaction_objs w' !! q = Some x) /\
    transaction_objs (world_AB (of_Z 100) (of_Z 0)) !! tx = None.
Proof.
  apply (CreateTransfer_frame (world_AB (of_Z 100) (of_Z 0)) "acc_A" "acc_B"
           (usd (of_Z 40)) 0 1 (account_A (of_Z 100)) (account_B (of_Z 0))).
  - discriminate.
  - stored.
  - stored.
  - reflexivity.
  - reflexivity.
  - vm_compute. reflexivity.
Defined.

(** X24 at acc_A = 0 and concurrent deposits of 10 and 20. *)
Lemma concurrent_deposits_lose_update_witness :
  exists (tx1 tx2 : ptr) (w' : World),
    interleave (replicate 4 false ++ replicate 8 true ++ replicate 4 false)
      (CreateDeposit "acc_A" (usd (of_Z 10))) (CreateDeposit "acc_A" (usd (of_Z 20)))
      (world_A zero)
      = Some (Ret (Ok tx1), Ret (Ok tx2), w') /\
    tx1 <> tx2 /\
    run (AccountRepositoryImpl.GetBalance "acc_A") w'
      = Some (Ok (add zero (of_Z 20)), w').
Proof.
  apply (concurrent_deposits_lose_update (world_A zero) "acc_A" (usd (of_Z 10))
           (usd (of_Z 20)) 0 (account_A zero)).
  - vm_compute. reflexivity.
  - vm_compute. reflexivity.
  - stored.
  - reflexivity.
Defined.
